(** * quant-train: the LLM pre-training script, embedded and verified

    A shallow embedding of [llm_pretrain.py] and [train_utils.py]:
    the shard streamers ([TokenDataset], [EvalTokenDataset]), the learning
    rate schedule ([LRSchedule]), the quantization configurator
    ([quantize_model]) and the accumulation and evaluation parts of the
    training loop.

    Conventions.
    - Python integers are [Z]; Python floats are idealised as exact
      rationals [Q] (no rounding, no infinities, no nan).
    - A call that may raise returns a [result]; a generator is described by
      the [trace] of what it yields until it returns or raises.
    - What lives outside the repository (the file system and [np.memmap],
      torch's random source, the language model, autograd, [math.cos]) is a
      parameter, gathered in records and classes. *)

From Stdlib Require Import ZArith QArith String Ascii List Lia Lqa.
From Stdlib Require Import DecimalString.
From stdpp Require Import base option list list_numbers sorting.

Local Open Scope string_scope.
Local Open Scope list_scope.
Local Open Scope Z_scope.

(** ** Python exceptions and results *)

Inductive exn : Type :=
| ZeroDivisionError
| ValueError (msg : string)
| RuntimeError (msg : string)
| AssertionError (msg : string)
| IndexError (msg : string)
| StopIteration
| OSError (msg : string).

Inductive result (A : Type) : Type :=
| Ok (a : A)
| Raise (e : exn).
Arguments Ok {A} a.
Arguments Raise {A} e.

#[global] Instance result_ret : MRet result := fun A a => Ok a.
#[global] Instance result_bind : MBind result := fun A B k r =>
  match r with
  | Ok a => k a
  | Raise e => Raise e
  end.

Definition raises {A} (r : result A) : Prop := exists e, r = Raise e.

(** ** Generators

    Draining a generator gives the items it yielded, in order, and the
    exception that ended it, if one did. *)

Record trace (A : Type) : Type := Trace {
  yielded : list A;
  raised : option exn
}.
Arguments Trace {A} yielded raised.
Arguments yielded {A} t.
Arguments raised {A} t.

Definition tdone {A} : trace A := Trace [] None.
Definition traise {A} (e : exn) : trace A := Trace [] (Some e).
Definition tyield {A} (x : A) (t : trace A) : trace A :=
  Trace (x :: yielded t) (raised t).

(** [tseq t k]: run [t]; if it did not raise, go on with [k]. *)
Definition tseq {A} (t k : trace A) : trace A :=
  match raised t with
  | Some e => t
  | None => Trace (yielded t ++ yielded k) (raised k)
  end.

(** ** Tensors of token ids

    A 1-D tensor is a list of integers, a 2-D tensor a list of rows. *)

Abbreviation Tensor1 := (list Z) (only parsing).
Abbreviation Tensor2 := (list (list Z)) (only parsing).
Abbreviation Batch := (list (list Z) * list (list Z))%type (only parsing).

(** Python's [l[a:b]] for a step of 1: negative bounds count from the end,
    bounds are clamped to the length. *)
Definition slice_bound (len i : Z) : Z :=
  if i <? 0 then Z.max 0 (len + i) else Z.min i len.

Definition py_slice {A} (l : list A) (a b : Z) : list A :=
  let len := Z.of_nat (length l) in
  let a' := slice_bound len a in
  let b' := slice_bound len b in
  take (Z.to_nat (b' - a')) (drop (Z.to_nat a') l).

(** [l[a:]] and [l[:b]]. *)
Definition py_slice_from {A} (l : list A) (a : Z) : list A :=
  py_slice l a (Z.of_nat (length l)).
Definition py_slice_to {A} (l : list A) (b : Z) : list A :=
  py_slice l 0 b.

(** Python's [l[i]] on a list. *)
Definition py_index {A} (l : list A) (i : Z) : result A :=
  let len := Z.of_nat (length l) in
  let j := if i <? 0 then len + i else i in
  if (j <? 0) || (len <=? j) then Raise (IndexError "list index out of range")
  else match l !! Z.to_nat j with
       | Some x => Ok x
       | None => Raise (IndexError "list index out of range")
       end.

(** [rows r c t]: the first [r] consecutive runs of [c] elements of [t]. *)
Fixpoint rows {A} (r c : nat) (t : list A) : list (list A) :=
  match r with
  | O => []
  | S r' => take c t :: rows r' c (drop c t)
  end.

(** [t.view(r, c)] on a 1-D tensor: the sizes must multiply to the number
    of elements; one size may be [-1] and is then inferred. *)
Definition view (t : Tensor1) (r c : Z) : result Tensor2 :=
  let n := Z.of_nat (length t) in
  if (r <? -1) || (c <? -1) then
    Raise (RuntimeError "invalid shape dimension")
  else if (r =? -1) && (c =? -1) then
    Raise (RuntimeError "only one dimension can be inferred")
  else if r =? -1 then
    if (0 <? c) && (n mod c =? 0)
    then Ok (rows (Z.to_nat (n / c)) (Z.to_nat c) t)
    else Raise (RuntimeError "shape is invalid for input size")
  else if c =? -1 then
    if (0 <? r) && (n mod r =? 0)
    then Ok (rows (Z.to_nat r) (Z.to_nat (n / r)) t)
    else Raise (RuntimeError "shape is invalid for input size")
  else if r * c =? n then Ok (rows (Z.to_nat r) (Z.to_nat c) t)
  else Raise (RuntimeError "shape is invalid for input size").

(** ** The world outside the script *)

(** The file system as the streamers see it: the entries of a directory in
    the order the system lists them, and [np.memmap(path, dtype=np.uint16,
    mode="r", offset=...)] followed by [torch.from_numpy], which gives the
    tokens of a shard from a byte offset on, or raises. *)
Record FileSystem : Type := {
  iterdir : string -> list string;
  memmap : string -> Z -> result Tensor1
}.

(** torch's random source. [randperm n] is a permutation of [0 .. n-1];
    [randint lo hi] lies in [[lo, hi)]. Both advance the generator state. *)
Class TorchRng : Type := {
  rng : Type;
  randperm : Z -> rng -> list Z * rng;
  randint : Z -> Z -> rng -> Z * rng;
  randperm_perm : forall n g, (randperm n g).1 ≡ₚ seqZ 0 n;
  randint_range : forall lo hi g, lo < hi -> lo <= (randint lo hi g).1 < hi
}.

(** ** [sorted] and [Path.glob] *)

Definition str_le (s1 s2 : string) : Prop := String.leb s1 s2 = true.

#[global] Instance str_le_dec : RelDecision str_le.
Proof. intros s1 s2. unfold str_le. apply _. Defined.

(** [sorted(paths)]: paths of one directory compare by their names. *)
Definition sorted (l : list string) : list string := merge_sort str_le l.

Fixpoint string_rev_acc (s acc : string) : string :=
  match s with
  | EmptyString => acc
  | String c s' => string_rev_acc s' (String c acc)
  end.

Definition endswith (s suffix : string) : bool :=
  String.prefix (string_rev_acc suffix "") (string_rev_acc s "").

(** [Path(dataset_dir).glob("*.bin")]: the entries whose name ends in
    [.bin], as paths under the directory. *)
Definition glob_bin (fs : FileSystem) (dataset_dir : string) : list string :=
  map (fun name => String.append dataset_dir (String.append "/" name))
      (filter (fun name => endswith name ".bin" = true) (iterdir fs dataset_dir)).

(** [str(n)] for a natural number. *)
Definition str_of_nat (n : nat) : string :=
  NilZero.string_of_uint (Nat.to_uint n).

(** ** [TokenDataset]: the training streamer *)

Module TokenDataset.

Record t : Type := {
  shards : list string;
  batch_size : Z;
  seq_len : Z;
  toks_per_batch : Z
}.

(** [__init__]: the sorted [*.bin] paths of the directory; the second
    component is what it prints. *)
Definition __init__ (fs : FileSystem) (dataset_dir : string)
    (batch_size seq_len : Z) : result (t * list string) :=
  let shards := sorted (glob_bin fs dataset_dir) in
  let self := {| shards := shards;
                 batch_size := batch_size;
                 seq_len := seq_len;
                 toks_per_batch := batch_size * (seq_len + 1) |} in
  Ok (self,
      [String.append "Found "
         (String.append (str_of_nat (length shards)) " shards of data")]).

(** The body of the [for slice_idx in slice_indices] loop. *)
Fixpoint slices_loop (self : t) (shard : Tensor1) (slice_indices : list Z)
    : trace Batch :=
  match slice_indices with
  | [] => tdone
  | slice_idx :: rest =>
      let batch := py_slice shard (slice_idx * toks_per_batch self)
                                  ((slice_idx + 1) * toks_per_batch self) in
      match view batch (batch_size self) (seq_len self + 1) with
      | Raise e => traise e
      | Ok batch =>
          let tokens := map (fun row => py_slice_to row (-1)) batch in
          let labels := map (fun row => py_slice_from row 1) batch in
          tyield (tokens, labels) (slices_loop self shard rest)
      end
  end.

(** [_iter_shard]. [math.floor(a / b)] raises on [b = 0] and is the floor
    quotient otherwise; [torch.randperm] refuses a negative size while
    [range] of one is empty. *)
Definition _iter_shard {torch : TorchRng} (self : t) (shard : Tensor1)
    (shuffle : bool) (g : rng) : trace Batch * rng :=
  if toks_per_batch self =? 0 then
    (traise ZeroDivisionError, g)
  else
    let n_slices := Z.of_nat (length shard) / toks_per_batch self in
    if shuffle then
      if n_slices <? 0 then
        (traise (RuntimeError "n must be non-negative"), g)
      else
        let '(slice_indices, g') := randperm n_slices g in
        (slices_loop self shard slice_indices, g')
    else (slices_loop self shard (seqZ 0 n_slices), g).

(** The body of the [for shard_idx in shard_indices] loop of [__iter__]. *)
Fixpoint shards_loop {torch : TorchRng} (fs : FileSystem) (self : t)
    (shard_indices : list Z) (g : rng) : trace Batch * rng :=
  match shard_indices with
  | [] => (tdone, g)
  | shard_idx :: rest =>
      if toks_per_batch self <=? 0 then
        (traise (RuntimeError "random_ expects from to be less than to"), g)
      else
        let '(offset, g1) := randint 0 (toks_per_batch self) g in
        match py_index (shards self) shard_idx with
        | Raise e => (traise e, g1)
        | Ok path =>
            match memmap fs path (offset * 2) with
            | Raise e => (traise e, g1)
            | Ok shard =>
                let '(t1, g2) := _iter_shard self shard true g1 in
                match raised t1 with
                | Some _ => (t1, g2)
                | None =>
                    let '(t2, g3) := shards_loop fs self rest g2 in
                    (tseq t1 t2, g3)
                end
            end
        end
  end.

(** [__iter__] never returns: [__iter__ fs self cycles g] is what the
    first [cycles] rounds of its [while True] yield. *)
Fixpoint __iter__ {torch : TorchRng} (fs : FileSystem) (self : t) (cycles : nat)
    (g : rng) : trace Batch * rng :=
  match cycles with
  | O => (tdone, g)
  | S cycles' =>
      let '(shard_indices, g1) :=
        randperm (Z.of_nat (length (shards self))) g in
      let '(t1, g2) := shards_loop fs self shard_indices g1 in
      match raised t1 with
      | Some _ => (t1, g2)
      | None =>
          let '(t2, g3) := __iter__ fs self cycles' g2 in
          (tseq t1 t2, g3)
      end
  end.

End TokenDataset.

(** ** [EvalTokenDataset]: the evaluation streamer *)

Module EvalTokenDataset.

(** The body of the [for shard_idx in range(len(self.shards))] loop. *)
Fixpoint shards_loop {torch : TorchRng} (fs : FileSystem) (self : TokenDataset.t)
    (shard_indices : list Z) (g : rng) : trace Batch * rng :=
  match shard_indices with
  | [] => (tdone, g)
  | shard_idx :: rest =>
      match py_index (TokenDataset.shards self) shard_idx with
      | Raise e => (traise e, g)
      | Ok path =>
          match memmap fs path 0 with
          | Raise e => (traise e, g)
          | Ok shard =>
              let '(t1, g1) := TokenDataset._iter_shard self shard false g in
              match raised t1 with
              | Some _ => (t1, g1)
              | None =>
                  let '(t2, g2) := shards_loop fs self rest g1 in
                  (tseq t1 t2, g2)
              end
          end
      end
  end.

(** [__iter__]; [worker_info] is [None] in the main process and the
    number of workers inside a data-loading worker. *)
Definition __iter__ {torch : TorchRng} (fs : FileSystem) (self : TokenDataset.t)
    (worker_info : option Z) (g : rng) : trace Batch * rng :=
  match worker_info with
  | Some num_workers =>
      if num_workers =? 1 then
        shards_loop fs self
          (seqZ 0 (Z.of_nat (length (TokenDataset.shards self)))) g
      else (traise (AssertionError "Please use num_workers<=1"), g)
  | None =>
      shards_loop fs self
        (seqZ 0 (Z.of_nat (length (TokenDataset.shards self)))) g
  end.

End EvalTokenDataset.

(** ** [LRSchedule] *)

(** [math.cos] and [math.pi]. *)
Class Math : Type := {
  cos : Q -> Q;
  pi : Q
}.

(** [int(x)] on a float: truncation towards zero. *)
Definition py_int (x : Q) : Z := Z.quot (Qnum x) (Zpos (Qden x)).

(** [x / n] for a float [x] and an integer [n]. *)
Definition float_div_int (x : Q) (n : Z) : result Q :=
  if n =? 0 then Raise ZeroDivisionError
  else Ok (x / inject_Z n)%Q.

(** [a / b] for two integers (true division). *)
Definition int_div_int (a b : Z) : result Q :=
  if b =? 0 then Raise ZeroDivisionError
  else Ok (inject_Z a / inject_Z b)%Q.

Module LRSchedule.

Record t : Type := {
  lr : Q;
  t1 : Z;
  t2 : Z;
  t3 : Z;
  decay_type : string
}.

Definition __init__ (lr : Q) (n_steps : Z) (warmup decay : Q)
    (decay_type : string) : result t :=
  let self := {| lr := lr;
                 t1 := py_int (inject_Z n_steps * warmup)%Q;
                 t2 := py_int (inject_Z n_steps * (1 - decay))%Q;
                 t3 := n_steps;
                 decay_type := decay_type |} in
  if negb (t1 self <=? t2 self) then Raise (AssertionError "")
  else if negb (String.eqb decay_type "linear"
                || String.eqb decay_type "cosine")
  then Raise (AssertionError "")
  else Ok self.

Definition get_lr {math : Math} (self : t) (step : Z) : result Q :=
  if step <? t1 self then
    float_div_int (lr self * inject_Z step)%Q (t1 self)
  else if step <? t2 self then
    Ok (lr self)
  else if step <? t3 self then
    progress ← int_div_int (step - t2 self) (t3 self - t2 self);
    if String.eqb (decay_type self) "linear" then
      Ok (lr self * (1 - progress))%Q
    else if String.eqb (decay_type self) "cosine" then
      Ok ((1 # 2) * lr self * (1 + cos (progress * pi)))%Q
    else Ok 0%Q
  else Ok 0%Q.

End LRSchedule.

(** ** [quantize_model] *)

(** [Int8QTConfig(activation=..., grad_weight_compute=...)]; a field left
    out of the call is [None] here and takes the class's default. *)
Record Int8QTConfig : Type := {
  activation : option string;
  grad_weight_compute : option string
}.

(** Modelled from the spec: the module [subclass] with
    [quantize_linear_weight_int8] and [quantize_linear_weight_int4] is not
    among the sources. The specification describes them as rewriting the
    linear sublayers of the model in place into functionally equivalent
    quantized variants; they are total transformations of the module here.
    [config] is [None] when the call passes none. *)
Class Subclass : Type := {
  nn_Module : Type;
  quantize_linear_weight_int8 : nn_Module -> option Int8QTConfig -> nn_Module;
  quantize_linear_weight_int4 : nn_Module -> nn_Module
}.

(** [repr] of a string that needs no escaping. *)
Definition repr (s : string) : string :=
  String.append "'" (String.append s "'").

Definition quantize_model {sub : Subclass} (model : nn_Module)
    (quantization : option string) : result nn_Module :=
  match quantization with
  | None => Ok model
  | Some q =>
      if String.eqb q "int8" then
        Ok (quantize_linear_weight_int8 model None)
      else if String.eqb q "int8_activation_int8" then
        Ok (quantize_linear_weight_int8 model
              (Some {| activation := Some "int8";
                       grad_weight_compute := None |}))
      else if String.eqb q "int8_activation_int8_sr" then
        Ok (quantize_linear_weight_int8 model
              (Some {| activation := Some "int8_sr";
                       grad_weight_compute := None |}))
      else if String.eqb q "int8_activation_int8_grad_weight_int8" then
        Ok (quantize_linear_weight_int8 model
              (Some {| activation := Some "int8";
                       grad_weight_compute := Some "int8" |}))
      else if String.eqb q "int8_activation_int8_sr_grad_weight_int8_sr" then
        Ok (quantize_linear_weight_int8 model
              (Some {| activation := Some "int8_sr";
                       grad_weight_compute := Some "int8_sr" |}))
      else if String.eqb q "int4" then
        Ok (quantize_linear_weight_int4 model)
      else
        Raise (ValueError (String.append "Unsupported quantization=" (repr q)))
  end.

(** The names [quantize_model] recognises. *)
Definition recognized_quantizations : list string :=
  [ "int8"; "int8_activation_int8"; "int8_activation_int8_sr";
    "int8_activation_int8_grad_weight_int8";
    "int8_activation_int8_sr_grad_weight_int8_sr"; "int4" ].

(** ** The training loop: loss, accumulation, evaluation *)

(** The language model and torch's differentiation, as the loop uses them.
    [logits p training tokens] is [model(tokens).logits] (batch, position,
    vocabulary) for parameters [p] in training or inference mode;
    [neg_log_softmax row target] is the cross-entropy of one position;
    [autograd p training tokens labels] is the gradient of
    [get_loss(model, tokens, labels)] with respect to each parameter, which
    [backward] adds to the parameters' [.grad]; a gradient is indexed by
    the position of the parameter. *)
Class Net : Type := {
  Params : Type;
  logits : Params -> bool -> Tensor2 -> list (list (list Q));
  neg_log_softmax : list Q -> Z -> Q;
  autograd : Params -> bool -> Tensor2 -> Tensor2 -> nat -> Q
}.

Definition Qsum (l : list Q) : Q := fold_right Qplus 0%Q l.

(** [torch.nn.functional.cross_entropy(input, target)] with its defaults:
    the mean ([reduction="mean"]) of the per-row losses over the targets
    other than [ignore_index = -100]. *)
Definition cross_entropy {net : Net} (input : list (list Q)) (target : list Z)
    : result Q :=
  if Nat.eqb (length input) (length target) then
    let kept := filter (fun p => p.2 <> -100) (zip input target) in
    Ok (Qsum (map (fun p => neg_log_softmax p.1 p.2) kept)
        / inject_Z (Z.of_nat (length kept)))%Q
  else Raise (ValueError "Expected input batch_size to match target batch_size").

(** A scalar loss tensor: its value and its gradient with respect to the
    parameters. *)
Record Loss : Type := {
  item : Q;
  d_params : nat -> Q
}.

Definition get_loss {net : Net} (model : Params) (training : bool)
    (tokens labels : Tensor2) : result Loss :=
  let logits := concat (logits model training tokens) in
  v ← cross_entropy logits (concat labels);
  Ok {| item := v; d_params := autograd model training tokens labels |}.

(** The model as the loop holds it: parameters, mode, accumulated
    gradients ([None] before the first backward pass and after
    [zero_grad]), and what was logged. *)
Record TrainState {net : Net} : Type := {
  params : Params;
  training : bool;
  grad : option (nat -> Q);
  logged : list (Z * string * Q)
}.

Definition vadd (a b : nat -> Q) : nat -> Q := fun j => (a j + b j)%Q.

(** [loss.backward()]: add the loss's gradient to the accumulated one. *)
Definition backward {net : Net} (loss : Loss) (st : TrainState) : TrainState :=
  {| params := params st;
     training := training st;
     grad := match grad st with
             | None => Some (d_params loss)
             | Some a => Some (vadd a (d_params loss))
             end;
     logged := logged st |}.

(** [model.train()] / [model.eval()]. *)
Definition set_mode {net : Net} (mode : bool) (st : TrainState) : TrainState :=
  {| params := params st; training := mode; grad := grad st;
     logged := logged st |}.

(** [run.log(dict(key=value), step=step)]. *)
Definition run_log {net : Net} (key : string) (value : Q) (step : Z)
    (st : TrainState) : TrainState :=
  {| params := params st; training := training st; grad := grad st;
     logged := logged st ++ [(step, key, value)] |}.

(** [next(it)] on an iterator over a generator, given the trace of the
    generator: the next item while there is one, then the exception that
    ended the generator, and [StopIteration] when it returned. The
    training stream never returns; a trace of it that has no exception is
    a prefix of it, and what follows such a prefix is the next round of
    the stream, not [StopIteration]: no property below is drawn from
    [next] past the end of such a prefix. *)
Definition next {A} (it : trace A) : result (A * trace A) :=
  match yielded it with
  | x :: rest => Ok (x, Trace rest (raised it))
  | [] => match raised it with
          | Some e => Raise e
          | None => Raise StopIteration
          end
  end.

(** Lines 194-197: [for _ in range(gradient_accumulation)]. The last
    component is the variable [loss] after the loop. *)
Fixpoint accumulation_loop {net : Net} (n : nat) (st : TrainState)
    (dloader : trace Batch) (loss : option Loss)
    : result (TrainState * trace Batch * option Loss) :=
  match n with
  | O => Ok (st, dloader, loss)
  | S n' =>
      '(tokens, labels, dloader') ← next dloader;
      loss ← get_loss (params st) (training st) tokens labels;
      accumulation_loop n' (backward loss st) dloader' (Some loss)
  end.

Definition accumulate {net : Net} (gradient_accumulation : Z) (st : TrainState)
    (dloader : trace Batch) (loss : option Loss)
    : result (TrainState * trace Batch * option Loss) :=
  accumulation_loop (Z.to_nat gradient_accumulation) st dloader loss.

(** Lines 246-248: the loop over the validation loader. *)
Fixpoint eval_loop {net : Net} (model : Params) (batches : list Batch)
    (total_loss : Q) (n_batches : Z) : result (Q * Z) :=
  match batches with
  | [] => Ok (total_loss, n_batches)
  | (tokens, labels) :: rest =>
      loss ← get_loss model false tokens labels;
      eval_loop model rest (total_loss + item loss)%Q (n_batches + 1)
  end.

(** Lines 239-251: the evaluation block. The loader has one worker, so the
    dataset is iterated with [worker_info.num_workers = 1]. The result is
    the state the block leaves and [val_loss], or the exception that
    left it. *)
Definition evaluation_block {net : Net} {torch : TorchRng} (fs : FileSystem)
    (val_dataset_dir : string) (batch_size seq_len : Z) (step : Z)
    (st : TrainState) (g : rng) : TrainState * result Q :=
  match TokenDataset.__init__ fs val_dataset_dir batch_size seq_len with
  | Raise e => (st, Raise e)
  | Ok (val_ds, _) =>
      let val_dloader := (EvalTokenDataset.__iter__ fs val_ds (Some 1) g).1 in
      let st1 := set_mode false st in
      match eval_loop (params st1) (yielded val_dloader) 0%Q 0 with
      | Raise e => (st1, Raise e)
      | Ok (total_loss, n_batches) =>
          match raised val_dloader with
          | Some e => (st1, Raise e)
          | None =>
              match float_div_int total_loss n_batches with
              | Raise e => (st1, Raise e)
              | Ok val_loss =>
                  let st2 := run_log "val_loss" val_loss step st1 in
                  (set_mode true st2, Ok val_loss)
              end
          end
      end
  end.

(** ** What the claims say, as predicates *)

(** Row [i] of a slice cut into rows of [seq_len + 1] tokens. *)
Definition slice_row (slice : Tensor1) (seq_len : Z) (i : nat) : Tensor1 :=
  take (Z.to_nat (seq_len + 1)) (drop (i * Z.to_nat (seq_len + 1)) slice).

(** [b] is the batch of [slice]: the slice has [batch_size * (seq_len + 1)]
    tokens, and row [i] of the labels is row [i] of the slice without its
    first token, row [i] of the tokens is that row without its last one, so
    that the tokens followed by the last label give the row back. *)
Definition batch_of_slice (batch_size seq_len : Z) (slice : Tensor1)
    (b : Batch) : Prop :=
  Z.of_nat (length slice) = batch_size * (seq_len + 1) /\
  length b.1 = Z.to_nat batch_size /\
  length b.2 = Z.to_nat batch_size /\
  forall i : nat, (i < Z.to_nat batch_size)%nat ->
    exists trow lrow x,
      b.1 !! i = Some trow /\ b.2 !! i = Some lrow /\
      length (slice_row slice seq_len i) = Z.to_nat (seq_len + 1) /\
      lrow = drop 1 (slice_row slice seq_len i) /\
      trow = take (Z.to_nat seq_len) (slice_row slice seq_len i) /\
      last lrow = Some x /\
      trow ++ [x] = slice_row slice seq_len i.

(** [b] was cut from a shard of the dataset: some shard file, opened at
    some byte offset, has [b] as the batch of its [slice_idx]-th run of
    [toks_per_batch] tokens. *)
Definition cut_from_shard (fs : FileSystem) (self : TokenDataset.t)
    (b : Batch) : Prop :=
  exists path offset shard slice_idx,
    path ∈ TokenDataset.shards self /\
    memmap fs path offset = Ok shard /\
    0 <= slice_idx /\
    batch_of_slice (TokenDataset.batch_size self) (TokenDataset.seq_len self)
      (py_slice shard (slice_idx * TokenDataset.toks_per_batch self)
                      ((slice_idx + 1) * TokenDataset.toks_per_batch self)) b.

(** The mean, over all positions of a batch, of the cross-entropy of the
    position. *)
Definition mean_token_cross_entropy {net : Net} (model : Params) (training : bool)
    (tokens labels : Tensor2) : Q :=
  (Qsum (zip_with neg_log_softmax (concat (logits model training tokens))
                                  (concat labels))
   / inject_Z (Z.of_nat (length (concat labels))))%Q.

(** Component [j] of the accumulated gradient; nothing accumulated counts
    as zero. *)
Definition grad_component (grad : option (nat -> Q)) (j : nat) : Q :=
  match grad with
  | None => 0%Q
  | Some a => a j
  end.

(** What the accumulation of [g] sub-steps did: it took the next [g]
    batches of the loader; the loss of each is the mean token
    cross-entropy of that batch (for labels that are token ids); the
    variable [loss] holds the last of them, undivided; the parameters and
    the mode are as before; and every component of the accumulated
    gradient is what it was plus the plain sum of the gradients of the [g]
    losses. *)
Definition accumulated_sum {net : Net} (g : Z) (st st' : TrainState)
    (dloader dloader' : trace Batch) (loss' : option Loss) : Prop :=
  exists (batches : list Batch) (losses : list Loss),
    length batches = Z.to_nat g /\
    yielded dloader = batches ++ yielded dloader' /\
    Forall2 (fun b l =>
               get_loss (params st) (training st) b.1 b.2 = Ok l /\
               (Forall (fun y => 0 <= y) (concat b.2) ->
                item l = mean_token_cross_entropy (params st) (training st)
                           b.1 b.2))
            batches losses /\
    loss' = last losses /\
    params st' = params st /\
    training st' = training st /\
    exists acc, grad st' = Some acc /\
      forall j, (acc j == grad_component (grad st) j
                          + Qsum (map (fun l => d_params l j) losses))%Q.

(** ** Small concrete worlds, to run the definitions on *)

(** A random source whose state counts the draws: [randperm] answers the
    range, reversed on odd counts, and [randint] walks through its
    interval. *)
#[local] Program Instance counting_rng : TorchRng := {|
  rng := nat;
  randperm := fun n g =>
    (if Nat.odd g then reverse (seqZ 0 n) else seqZ 0 n, S g);
  randint := fun lo hi g => (lo + Z.of_nat g mod (hi - lo), S g)
|}.
Next Obligation.
  intros n g. simpl. destruct (Nat.odd g); [apply reverse_Permutation|reflexivity].
Qed.
Next Obligation.
  intros lo hi g Hlt. simpl.
  pose proof (Z.mod_pos_bound (Z.of_nat g) (hi - lo)). lia.
Qed.

Fixpoint lookup_file (files : list (string * Tensor1)) (path : string)
    : option Tensor1 :=
  match files with
  | [] => None
  | (p, toks) :: rest =>
      if String.eqb p path then Some toks else lookup_file rest path
  end.

(** A file system with one directory [dir] holding [names], and the given
    token files; a shard opened at a byte offset starts half that many
    tokens in. *)
Definition fs_of (dir : string) (names : list string)
    (files : list (string * Tensor1)) : FileSystem :=
  {| iterdir := fun d => if String.eqb d dir then names else [];
     memmap := fun path offset =>
       match lookup_file files path with
       | Some toks => Ok (drop (Z.to_nat (offset / 2)) toks)
       | None => Raise (OSError "No such file or directory")
       end |}.

(** Two shards of twelve tokens and a file that is not a shard. *)
Definition demo_fs : FileSystem :=
  fs_of "val" ["b.bin"; "notes.txt"; "a.bin"]
    [ ("val/a.bin", [1; 2; 3; 4; 5; 6; 7; 8; 9; 10; 11; 12]);
      ("val/b.bin", [21; 22; 23; 24; 25; 26; 27; 28; 29; 30; 31; 32]) ].

(** The same directory, listed in another order. *)
Definition demo_fs_relisted : FileSystem :=
  fs_of "val" ["a.bin"; "b.bin"; "notes.txt"]
    [ ("val/a.bin", [1; 2; 3; 4; 5; 6; 7; 8; 9; 10; 11; 12]);
      ("val/b.bin", [21; 22; 23; 24; 25; 26; 27; 28; 29; 30; 31; 32]) ].


(** A directory without shards. *)
Definition empty_fs : FileSystem := fs_of "val" ["notes.txt"] [].

(** A model with one parameter whose loss is 1 on every token. *)
#[local] Instance demo_net : Net := {|
  Params := Q;
  logits := fun _ _ tokens => map (map (fun _ => [0%Q; 0%Q])) tokens;
  neg_log_softmax := fun _ _ => 1%Q;
  autograd := fun _ _ _ _ j => if Nat.eqb j 0 then 1%Q else 0%Q
|}.

#[local] Instance demo_math : Math := {| cos := fun _ => 0%Q; pi := 3%Q |}.

(** Ten steps with two warmup steps and three decay steps, and ten steps
    without warmup. *)
Definition demo_schedule : LRSchedule.t :=
  {| LRSchedule.lr := 3 # 10000; LRSchedule.t1 := 2; LRSchedule.t2 := 7;
     LRSchedule.t3 := 10; LRSchedule.decay_type := "linear" |}.

Definition demo_schedule_no_warmup : LRSchedule.t :=
  {| LRSchedule.lr := 3 # 10000; LRSchedule.t1 := 0; LRSchedule.t2 := 7;
     LRSchedule.t3 := 10; LRSchedule.decay_type := "cosine" |}.

#[local] Instance demo_subclass : Subclass := {|
  nn_Module := list string;
  quantize_linear_weight_int8 := fun m _ => "int8" :: m;
  quantize_linear_weight_int4 := fun m => "int4" :: m
|}.

(** A freshly built model in training mode, or in inference mode. *)
Definition demo_state (mode : bool) : TrainState :=
  {| params := 0%Q; training := mode; grad := None; logged := [] |}.

Definition demo_ds : TokenDataset.t :=
  {| TokenDataset.shards := ["val/a.bin"; "val/b.bin"];
     TokenDataset.batch_size := 2;
     TokenDataset.seq_len := 2;
     TokenDataset.toks_per_batch := 6 |}.

(** The loader of the training loop over one round of the training
    streamer. *)
Definition demo_dloader : trace Batch :=
  (TokenDataset.__iter__ (torch := counting_rng) demo_fs demo_ds 1 0%nat).1.

(** * More of the script *)

(** ** What one round of the loops yields *)

(** The batch that the loop of [_iter_shard] yields for [slice_idx], when
    its [view] succeeds. *)
Definition batch_at (self : TokenDataset.t) (shard : Tensor1) (slice_idx : Z)
    : Batch :=
  let slice := py_slice shard (slice_idx * TokenDataset.toks_per_batch self)
                 ((slice_idx + 1) * TokenDataset.toks_per_batch self) in
  let batch := rows (Z.to_nat (TokenDataset.batch_size self))
                 (Z.to_nat (TokenDataset.seq_len self + 1)) slice in
  (map (fun row => py_slice_to row (-1)) batch,
   map (fun row => py_slice_from row 1) batch).

(** The tokens a batch was cut from: each row of tokens followed by the
    last label of the row, row after row. *)
Definition unbatch (b : Batch) : Tensor1 :=
  concat (zip_with (fun trow lrow => trow ++ drop (length lrow - 1) lrow)
                   b.1 b.2).

(** A batch has shape (batch_size, seq_len) on both sides. *)
Definition batch_shape (batch_size seq_len : Z) (b : Batch) : Prop :=
  length b.1 = Z.to_nat batch_size /\
  length b.2 = Z.to_nat batch_size /\
  Forall (fun row => length row = Z.to_nat seq_len) b.1 /\
  Forall (fun row => length row = Z.to_nat seq_len) b.2.

(** The number of whole slices of a shard. *)
Definition n_slices_of (self : TokenDataset.t) (shard : Tensor1) : Z :=
  Z.of_nat (length shard) / TokenDataset.toks_per_batch self.

(** The batches of the shards [paths], opened at byte offset 0 and cut in
    order, up to the first shard that does not open. *)
Fixpoint eval_trace (fs : FileSystem) (self : TokenDataset.t)
    (paths : list string) : trace Batch :=
  match paths with
  | [] => tdone
  | path :: rest =>
      match memmap fs path 0 with
      | Raise e => traise e
      | Ok shard =>
          tseq (Trace (map (batch_at self shard)
                           (seqZ 0 (n_slices_of self shard))) None)
               (eval_trace fs self rest)
      end
  end.

(** The sizes of a dataset make sense: at least one row per batch, and
    [toks_per_batch] as [__init__] computes it. *)
Definition sizes_ok (self : TokenDataset.t) : Prop :=
  0 < TokenDataset.batch_size self /\
  0 <= TokenDataset.seq_len self /\
  TokenDataset.toks_per_batch self
  = TokenDataset.batch_size self * (TokenDataset.seq_len self + 1).

(** The batches of one shard file read from its start, in order; none if
    the file does not open. *)
Definition shard_batches (fs : FileSystem) (self : TokenDataset.t)
    (path : string) : list Batch :=
  match memmap fs path 0 with
  | Ok shard => map (batch_at self shard) (seqZ 0 (n_slices_of self shard))
  | Raise _ => []
  end.

(** [b] is a whole slice of a shard of the dataset that was opened
    [offset] tokens in, with [offset] below [toks_per_batch]. *)
Definition whole_slice_at_offset (fs : FileSystem) (self : TokenDataset.t)
    (b : Batch) : Prop :=
  exists path offset shard slice_idx,
    path ∈ TokenDataset.shards self /\
    0 <= offset < TokenDataset.toks_per_batch self /\
    memmap fs path (offset * 2) = Ok shard /\
    0 <= slice_idx < n_slices_of self shard /\
    b = batch_at self shard slice_idx.

(** A directory that lists a shard which cannot be opened. *)
Definition broken_fs : FileSystem :=
  fs_of "val" ["a.bin"; "c.bin"; "d.bin"]
    [ ("val/a.bin", [1; 2; 3; 4; 5; 6; 7; 8; 9; 10; 11; 12]);
      ("val/d.bin", [41; 42; 43; 44; 45; 46; 47]) ].

Definition broken_ds : TokenDataset.t :=
  {| TokenDataset.shards := ["val/a.bin"; "val/c.bin"; "val/d.bin"];
     TokenDataset.batch_size := 2;
     TokenDataset.seq_len := 2;
     TokenDataset.toks_per_batch := 6 |}.

Definition no_shards_ds : TokenDataset.t :=
  {| TokenDataset.shards := [];
     TokenDataset.batch_size := 2;
     TokenDataset.seq_len := 2;
     TokenDataset.toks_per_batch := 6 |}.

(** ** [get_grad_norm] *)

(** [sum(items)]: Python adds from the left, starting from 0. *)
Definition py_sum (items : list Q) : Q := fold_left Qplus items 0%Q.

(** The generator of [get_grad_norm]: [p.grad.square().sum().item()] for
    the parameters whose [.grad] is not [None]; a gradient tensor is the
    list of its entries. *)
Fixpoint grad_square_sums (grads : list (option (list Q))) : list Q :=
  match grads with
  | [] => []
  | None :: rest => grad_square_sums rest
  | Some grad :: rest =>
      Qsum (map (fun x => x * x)%Q grad) :: grad_square_sums rest
  end.

(** What the training loop takes from the optimizer, the clock and the
    device: [optim_step state param_groups params grad] is
    [optim.step()]; [time n] is the answer of the [n]-th call of
    [time.time()]; [max_memory_allocated step] the answer of
    [torch.cuda.max_memory_allocated()] at that step; [param_grads] the
    [.grad] of every parameter tensor of the model; [pow_half x] is
    [x ** 0.5]. *)
Inductive lr_cell : Type :=
| LrFloat (lr : Q)
| LrTensor (lr : Q).

Class Runtime {net : Net} : Type := {
  OptimState : Type;
  optim_step : OptimState -> list lr_cell -> Params -> option (nat -> Q)
               -> Params * OptimState;
  time : nat -> Q;
  max_memory_allocated : Z -> Z;
  param_grads : TrainState -> list (option (list Q));
  pow_half : Q -> Q
}.

Definition get_grad_norm {net : Net} {rt : Runtime} (model : TrainState) : Q :=
  pow_half (py_sum (grad_square_sums (param_grads model))).

(** ** The training loop, lines 184-253 *)

(** The arguments the loop reads. *)
Record Args : Type := {
  n_steps : Z;
  batch_size : Z;
  seq_len : Z;
  gradient_accumulation : Z;
  ckpt_interval : Z;
  val_interval : Z;
  val_dataset_dir : option string;
  profile : bool
}.

(** Lines 145-146: profiling runs five steps. *)
Definition effective_n_steps (args : Args) : Z :=
  if profile args then 5 else n_steps args.

(** Failures of the loop: the exceptions met so far, and the [NameError]
    of reading [loss] before any sub-step has bound it. *)
Inductive failure : Type :=
| Exn (e : exn)
| NameError (name : string).

Inductive outcome (A : Type) : Type :=
| Done (a : A)
| Failed (f : failure).
Arguments Done {A} a.
Arguments Failed {A} f.

#[global] Instance outcome_ret : MRet outcome := fun A a => Done a.
#[global] Instance outcome_bind : MBind outcome := fun A B k r =>
  match r with
  | Done a => k a
  | Failed f => Failed f
  end.

Definition lift {A} (r : result A) : outcome A :=
  match r with
  | Ok a => Done a
  | Raise e => Failed (Exn e)
  end.

(** [last.pth]: the model's state, the optimizer's state with its
    parameter groups, and the step. *)
Record Checkpoint {net : Net} {rt : Runtime} : Type := {
  ckpt_model : Params;
  ckpt_optim : OptimState * list lr_cell;
  ckpt_step : Z
}.

(** The variables of the loop. [time_calls] counts the calls of
    [time.time()] so far; [last_ckpt] is the file [last.pth];
    [prof_started] tells whether the profiler was started. The progress
    bar is display only and is left out. *)
Record LoopState {net : Net} {rt : Runtime} : Type := {
  step : Z;
  model : TrainState;
  optim_state : OptimState;
  param_groups : list lr_cell;
  dloader : trace Batch;
  loss : option Loss;
  time0 : Q;
  time_calls : nat;
  last_ckpt : option Checkpoint;
  prof_started : bool
}.

Definition lr_of (c : lr_cell) : Q :=
  match c with
  | LrFloat lr => lr
  | LrTensor lr => lr
  end.

(** Lines 202-205: a tensor is filled, anything else is replaced. *)
Definition set_lr (lr : Q) (c : lr_cell) : lr_cell :=
  match c with
  | LrFloat _ => LrFloat lr
  | LrTensor _ => LrTensor lr
  end.

(** Lines 199-205. *)
Definition update_lr {math : Math} (lr_schedule : option LRSchedule.t)
    (step : Z) (param_groups : list lr_cell) : result (list lr_cell) :=
  match lr_schedule with
  | None => Ok param_groups
  | Some schedule =>
      lr ← LRSchedule.get_lr schedule step;
      Ok (map (set_lr lr) param_groups)
  end.

Definition log_interval : Z := 50.

(** Lines 207-220: the model with the record logged, [time0] and the
    number of calls of [time.time()]. *)
Definition log_step {net : Net} {rt : Runtime} (args : Args) (step : Z)
    (model : TrainState) (param_groups : list lr_cell) (loss : option Loss)
    (time0 : Q) (time_calls : nat) : outcome (TrainState * Q * nat) :=
  if step mod log_interval =? 0 then
    loss ← match loss with
           | Some loss => Done (item loss)
           | None => Failed (NameError "loss")
           end;
    let grad_norm := get_grad_norm model in
    group ← lift (py_index param_groups 0);
    let num_tokens_seen_millions :=
      (inject_Z (batch_size args * seq_len args * step) / 1000000)%Q in
    let memory := inject_Z (max_memory_allocated step) in
    let m1 := run_log "loss" loss step model in
    let m2 := run_log "grad_norm" grad_norm step m1 in
    let m3 := run_log "lr" (lr_of group) step m2 in
    let m4 := run_log "num_tokens_seen_millions" num_tokens_seen_millions
                step m3 in
    let m5 := run_log "max_memory_allocated" memory step m4 in
    if 0 <? step then
      let time1 := time time_calls in
      if Qeq_bool (time1 - time0) 0 then Failed (Exn ZeroDivisionError)
      else
        let tokens_per_second :=
          (inject_Z (batch_size args * seq_len args * log_interval)
           / (time1 - time0))%Q in
        Done (run_log "tokens_per_second" tokens_per_second step m5,
              time1, S time_calls)
    else Done (m5, time0, time_calls)
  else Done (model, time0, time_calls).

(** Lines 194-251: one round of the [while]. [g] is the random source of
    the validation worker. *)
Definition loop_body {net : Net} {rt : Runtime} {math : Math}
    {torch : TorchRng} (args : Args) (lr_schedule : option LRSchedule.t)
    (fs : FileSystem) (g : rng) (s : LoopState) : outcome LoopState :=
  '(m1, dloader1, loss1) ←
     lift (accumulate (gradient_accumulation args) (model s) (dloader s)
             (loss s));
  groups1 ← lift (update_lr lr_schedule (step s) (param_groups s));
  '(m2, time0', calls') ←
     log_step args (step s) m1 groups1 loss1 (time0 s) (time_calls s);
  let '(params', optim') :=
    optim_step (optim_state s) groups1 (params m2) (grad m2) in
  let m3 := {| params := params'; training := training m2; grad := None;
               logged := logged m2 |} in
  let step' := step s + 1 in
  let prof' := prof_started s || (profile args && (step' =? 1)) in
  let ckpt' :=
    if (0 <? ckpt_interval args) && (step' mod ckpt_interval args =? 0)
    then Some {| ckpt_model := params'; ckpt_optim := (optim', groups1);
                 ckpt_step := step' |}
    else last_ckpt s in
  let finish m :=
    {| step := step'; model := m; optim_state := optim';
       param_groups := groups1; dloader := dloader1; loss := loss1;
       time0 := time0'; time_calls := calls'; last_ckpt := ckpt';
       prof_started := prof' |} in
  match val_dataset_dir args with
  | Some dir =>
      if (0 <? val_interval args) && (step' mod val_interval args =? 0) then
        match evaluation_block fs dir (batch_size args) (seq_len args) step'
                m3 g with
        | (m4, Ok _) => Done (finish m4)
        | (_, Raise e) => Failed (Exn e)
        end
      else Done (finish m3)
  | None => Done (finish m3)
  end.

(** Line 193: [while step < args.n_steps]. [None] when the rounds allowed
    are used up before the loop ends. *)
Fixpoint train_loop {net : Net} {rt : Runtime} {math : Math}
    {torch : TorchRng} (rounds : nat) (args : Args)
    (lr_schedule : option LRSchedule.t) (fs : FileSystem) (g : rng)
    (s : LoopState) : option (outcome LoopState) :=
  if step s <? effective_n_steps args then
    match rounds with
    | O => None
    | S rounds' =>
        match loop_body args lr_schedule fs g s with
        | Done s' => train_loop rounds' args lr_schedule fs g s'
        | Failed f => Some (Failed f)
        end
    end
  else Some (Done s).

(** A small runtime: the optimizer moves the single parameter against its
    gradient and counts its steps; the clock ticks once per call. *)
#[local] Instance demo_runtime : Runtime (net := demo_net) := {|
  OptimState := nat;
  optim_step := fun count groups (p : @Params demo_net) grad =>
    (match grad, groups with
     | Some a, c :: _ => (p - lr_of c * a 0%nat)%Q
     | _, _ => p
     end, S count);
  time := fun n => inject_Z (Z.of_nat (S n));
  max_memory_allocated := fun _ => 1024;
  param_grads := fun st =>
    match grad st with
    | None => [None]
    | Some a => [Some [a 0%nat]]
    end;
  pow_half := fun x => x
|}.

(** Two steps of one sub-step each, with a checkpoint and an evaluation
    after the second. *)
Definition demo_args : Args :=
  {| n_steps := 2; batch_size := 2; seq_len := 2;
     gradient_accumulation := 1; ckpt_interval := 2; val_interval := 2;
     val_dataset_dir := Some "val"; profile := false |}.

Definition demo_loop_start : LoopState :=
  {| step := 0; model := demo_state true; optim_state := 0%nat;
     param_groups := [LrFloat (3 # 10000)]; dloader := demo_dloader;
     loss := None; time0 := 0%Q; time_calls := 0%nat; last_ckpt := None;
     prof_started := false |}.

(** ** Opening a shard as numpy does *)

(** [np.memmap(path, dtype=np.uint16, mode="r", offset=offset)] followed by
    [torch.from_numpy], for files given by their tokens (two bytes each).
    numpy measures the file, takes the bytes from [offset] on as the data,
    maps the file and views the data as tokens. It raises for a missing
    file, for an odd number of bytes after the offset, for an empty file
    (which cannot be mapped) and for an offset beyond the end of the file
    (a negative number of tokens); the messages are those for offsets
    below the allocation granularity. *)
Definition np_memmap (files : list (string * list Z)) (path : string)
    (offset : Z) : result (list Z) :=
  match lookup_file files path with
  | None => Raise (OSError "No such file or directory")
  | Some toks =>
      let flen := 2 * Z.of_nat (length toks) in
      if negb ((flen - offset) mod 2 =? 0) then
        Raise (ValueError
                 "Size of available data is not a multiple of the data-type size.")
      else if flen =? 0 then
        Raise (ValueError "cannot mmap an empty file")
      else if flen <? offset then
        Raise (ValueError "negative dimensions are not allowed")
      else Ok (drop (Z.to_nat (offset / 2)) toks)
  end.

(** A file system with one directory [dir] holding [names], opened as
    numpy opens files. *)
Definition numpy_fs (dir : string) (names : list string)
    (files : list (string * list Z)) : FileSystem :=
  {| iterdir := fun d => if String.eqb d dir then names else [];
     memmap := np_memmap files |}.

(** One shard of three tokens, and one shard without tokens; a dataset
    over either, with batches of 2 x (2 + 1) tokens. *)
Definition three_token_fs : FileSystem :=
  numpy_fs "val" ["a.bin"] [("val/a.bin", [1; 2; 3])].

Definition zero_token_fs : FileSystem :=
  numpy_fs "val" ["a.bin"] [("val/a.bin", [])].

Definition one_shard_ds : TokenDataset.t :=
  {| TokenDataset.shards := ["val/a.bin"];
     TokenDataset.batch_size := 2;
     TokenDataset.seq_len := 2;
     TokenDataset.toks_per_batch := 6 |}.

(** The loader over a round of the training streamer that meets a shard
    which does not open. *)
Definition failing_dloader : trace Batch :=
  (TokenDataset.__iter__ (torch := counting_rng) broken_fs broken_ds 1 0%nat).1.

(** The sum of the squares of all entries of the gradients present. *)
Definition sum_of_squared_entries (grads : list (option (list Q))) : Q :=
  Qsum (map (fun x => x * x)%Q (concat (omap id grads))).

(** * Properties *)

(** ** The definitions at work *)

Example demo_init :
  TokenDataset.__init__ demo_fs "val" 2 2
  = Ok (demo_ds, ["Found 2 shards of data"]).
Proof. vm_compute. reflexivity. Qed.

Example demo_eval_iter :
  (EvalTokenDataset.__iter__ demo_fs demo_ds None 0%nat).1
  = Trace [ ([[1; 2]; [4; 5]], [[2; 3]; [5; 6]]);
            ([[7; 8]; [10; 11]], [[8; 9]; [11; 12]]);
            ([[21; 22]; [24; 25]], [[22; 23]; [25; 26]]);
            ([[27; 28]; [30; 31]], [[28; 29]; [31; 32]]) ] None.
Proof. vm_compute. reflexivity. Qed.

(** ** Slices and views *)

Section SliceFacts.
Context {A : Type}.
Implicit Types l : list A.

Lemma py_slice_to_minus_one l :
  py_slice_to l (-1) = take (length l - 1)%nat l.
Proof.
  unfold py_slice_to, py_slice, slice_bound. simpl.
  replace (Z.min 0 (Z.of_nat (length l))) with 0 by lia.
  simpl. f_equal. lia.
Qed.

Lemma slice_bound_nonneg (len i : Z) :
  0 <= i -> slice_bound len i = Z.min i len.
Proof.
  intros Hi. unfold slice_bound.
  destruct (Z.ltb_spec i 0) as [Hlt|_]; [lia|reflexivity].
Qed.

Lemma py_slice_from_one l : py_slice_from l 1 = drop 1 l.
Proof.
  unfold py_slice_from, py_slice.
  rewrite !slice_bound_nonneg by lia.
  destruct l as [|x l]; [reflexivity|].
  replace (Z.to_nat (Z.min 1 (Z.of_nat (length (x :: l))))) with 1%nat
    by (simpl length; lia).
  apply take_ge. rewrite length_drop. simpl length. lia.
Qed.

Lemma rows_length (r c : nat) l : length (rows r c l) = r.
Proof.
  revert l. induction r as [|r IH]; intros l; simpl.
  - reflexivity.
  - now rewrite IH.
Qed.

Lemma rows_lookup (r c i : nat) l :
  (i < r)%nat -> rows r c l !! i = Some (take c (drop (i * c) l)).
Proof.
  revert i l. induction r as [|r IH]; intros i l Hi; [lia|].
  destruct i as [|i]; simpl.
  - reflexivity.
  - rewrite IH by lia. rewrite drop_drop. repeat f_equal; lia.
Qed.

Lemma lookup_map {B} (f : A -> B) l (i : nat) :
  map f l !! i = f <$> (l !! i).
Proof.
  revert i. induction l as [|a l IH]; intros [|i]; simpl; auto.
Qed.

Lemma take_snoc_last (n : nat) l x :
  length l = S n -> last l = Some x -> take n l ++ [x] = l.
Proof.
  intros Hlen Hlast.
  destruct l as [|y l' _] using rev_ind; [discriminate|].
  rewrite last_snoc in Hlast. injection Hlast as ->.
  rewrite length_app in Hlen. simpl in Hlen.
  rewrite take_app_length' by lia. reflexivity.
Qed.

Lemma last_drop_1 l :
  (2 <= length l)%nat -> last (drop 1 l) = last l.
Proof.
  destruct l as [|a [|b l]]; simpl; intros; try lia. reflexivity.
Qed.
End SliceFacts.

(** ** The batches of a shard *)

Lemma slice_row_length (bs sl : Z) (slice : Tensor1) (i : nat) :
  0 < bs -> 1 <= sl ->
  Z.of_nat (length slice) = bs * (sl + 1) ->
  (i < Z.to_nat bs)%nat ->
  length (slice_row slice sl i) = Z.to_nat (sl + 1).
Proof.
  intros Hbs Hsl Hlen Hi. unfold slice_row.
  rewrite length_take, length_drop.
  assert (Hn : length slice = (Z.to_nat bs * Z.to_nat (sl + 1))%nat) by nia.
  rewrite Hn. nia.
Qed.

Lemma view_batch (bs sl : Z) (slice : Tensor1) (batch : Tensor2) :
  0 < bs -> 1 <= sl ->
  view slice bs (sl + 1) = Ok batch ->
  batch_of_slice bs sl slice
    (map (fun row => py_slice_to row (-1)) batch,
     map (fun row => py_slice_from row 1) batch).
Proof.
  intros Hbs Hsl Hview. unfold view in Hview.
  destruct (Z.ltb_spec bs (-1)); [lia|].
  destruct (Z.ltb_spec (sl + 1) (-1)); [lia|].
  destruct (Z.eqb_spec bs (-1)); [lia|].
  destruct (Z.eqb_spec (sl + 1) (-1)); [lia|].
  simpl in Hview.
  destruct (Z.eqb_spec (bs * (sl + 1)) (Z.of_nat (length slice))) as [Hlen|];
    [|discriminate].
  injection Hview as <-.
  split; [lia|]. simpl.
  rewrite !length_map, rows_length.
  split; [reflexivity|]. split; [reflexivity|].
  intros i Hi.
  pose proof (slice_row_length bs sl slice i Hbs Hsl (eq_sym Hlen) Hi) as Hrow.
  assert (Hlast : is_Some (last (drop 1 (slice_row slice sl i)))).
  { apply last_is_Some. intros Hnil.
    apply (f_equal length) in Hnil. rewrite length_drop, Hrow in Hnil.
    simpl in Hnil. lia. }
  destruct Hlast as [x Hx].
  exists (take (Z.to_nat sl) (slice_row slice sl i)),
         (drop 1 (slice_row slice sl i)), x.
  rewrite !lookup_map, rows_lookup by exact Hi.
  fold (slice_row slice sl i). simpl.
  rewrite py_slice_to_minus_one, py_slice_from_one, Hrow.
  replace (Z.to_nat (sl + 1) - 1)%nat with (Z.to_nat sl) by lia.
  repeat split; try reflexivity; try exact Hx.
  apply take_snoc_last; [rewrite Hrow; lia|].
  rewrite <- Hx. symmetry. apply last_drop_1. rewrite Hrow. lia.
Qed.

Lemma slices_loop_sound (self : TokenDataset.t) (shard : Tensor1)
    (slice_indices : list Z) (b : Batch) :
  0 < TokenDataset.batch_size self -> 1 <= TokenDataset.seq_len self ->
  b ∈ yielded (TokenDataset.slices_loop self shard slice_indices) ->
  exists slice_idx, slice_idx ∈ slice_indices /\
    batch_of_slice (TokenDataset.batch_size self) (TokenDataset.seq_len self)
      (py_slice shard (slice_idx * TokenDataset.toks_per_batch self)
                      ((slice_idx + 1) * TokenDataset.toks_per_batch self)) b.
Proof.
  intros Hbs Hsl. induction slice_indices as [|k rest IH]; simpl; intros Hin.
  - inversion Hin.
  - destruct (view _ _ _) as [batch|e] eqn:Hview; simpl in Hin.
    + apply elem_of_cons in Hin as [->|Hin].
      * exists k. split; [left|]. now apply view_batch.
      * destruct (IH Hin) as [k' [Hk' Hb]]. exists k'. split; [now right|exact Hb].
    + inversion Hin.
Qed.

Section StreamerFacts.
Context {torch : TorchRng}.

(** A shard that yields a batch has a positive [toks_per_batch], and the
    batch is that of one of its slices. *)
Lemma iter_shard_sound (self : TokenDataset.t) (shard : Tensor1)
    (shuffle : bool) (g : rng) (b : Batch) :
  TokenDataset.toks_per_batch self
    = TokenDataset.batch_size self * (TokenDataset.seq_len self + 1) ->
  1 <= TokenDataset.seq_len self ->
  b ∈ yielded (TokenDataset._iter_shard self shard shuffle g).1 ->
  exists slice_idx, 0 <= slice_idx /\
    batch_of_slice (TokenDataset.batch_size self) (TokenDataset.seq_len self)
      (py_slice shard (slice_idx * TokenDataset.toks_per_batch self)
                      ((slice_idx + 1) * TokenDataset.toks_per_batch self)) b.
Proof.
  intros Htpb Hsl. unfold TokenDataset._iter_shard.
  destruct (Z.eqb_spec (TokenDataset.toks_per_batch self) 0) as [|Hnz];
    [simpl; intros Hin; inversion Hin|].
  set (n := Z.of_nat (length shard) / TokenDataset.toks_per_batch self).
  assert (Hpos : 0 < n -> 0 < TokenDataset.batch_size self).
  { intros Hn. subst n.
    destruct (Z.lt_trichotomy (TokenDataset.toks_per_batch self) 0)
      as [Hneg|[?|Hp]]; [|lia|nia].
    pose proof (Z.div_mod (Z.of_nat (length shard))
                  (TokenDataset.toks_per_batch self) Hnz) as Hdm.
    pose proof (Z.mod_neg_bound (Z.of_nat (length shard))
                  (TokenDataset.toks_per_batch self) Hneg) as Hmb.
    nia. }
  intros Hin.
  assert (Hgood : exists idxs, idxs ≡ₚ seqZ 0 n /\
            b ∈ yielded (TokenDataset.slices_loop self shard idxs)).
  { destruct shuffle.
    - destruct (Z.ltb_spec n 0); [simpl in Hin; inversion Hin|].
      pose proof (randperm_perm n g) as Hperm.
      destruct (randperm n g) as [idxs g'] eqn:Hrp. simpl in *.
      eauto.
    - simpl in Hin. eauto. }
  destruct Hgood as [idxs [Hperm Hin']].
  assert (Hn : 0 < n).
  { destruct (Z.ltb_spec 0 n); [assumption|].
    rewrite seqZ_nil in Hperm by lia.
    apply Permutation_nil_r in Hperm. subst idxs. inversion Hin'. }
  destruct (slices_loop_sound self shard idxs b (Hpos Hn) Hsl Hin')
    as [k [Hk Hb]].
  exists k. split; [|exact Hb].
  rewrite Hperm in Hk. apply elem_of_seqZ in Hk. lia.
Qed.
End StreamerFacts.

Lemma py_index_elem {A} (l : list A) (i : Z) (x : A) :
  py_index l i = Ok x -> x ∈ l.
Proof.
  unfold py_index. destruct (_ || _); [discriminate|].
  destruct (l !! _) as [y|] eqn:Hl; [|discriminate].
  intros [= ->]. eapply list_elem_of_lookup_2, Hl.
Qed.

Lemma elem_of_tseq {A} (t k : trace A) (x : A) :
  x ∈ yielded (tseq t k) -> x ∈ yielded t \/ x ∈ yielded k.
Proof.
  unfold tseq. destruct (raised t); simpl; [now left|].
  intros Hin. now apply elem_of_app in Hin.
Qed.

Section StreamerSound.
Context {torch : TorchRng}.
Variable fs : FileSystem.
Variable self : TokenDataset.t.
Hypothesis Htpb :
  TokenDataset.toks_per_batch self
  = TokenDataset.batch_size self * (TokenDataset.seq_len self + 1).
Hypothesis Hsl : 1 <= TokenDataset.seq_len self.

Lemma cut_from_iter_shard path offset shard shuffle g b :
  path ∈ TokenDataset.shards self ->
  memmap fs path offset = Ok shard ->
  b ∈ yielded (TokenDataset._iter_shard self shard shuffle g).1 ->
  cut_from_shard fs self b.
Proof.
  intros Hpath Hmm Hin.
  destruct (iter_shard_sound self shard shuffle g b Htpb Hsl Hin)
    as [k [Hk Hb]].
  exists path, offset, shard, k. auto.
Qed.

Lemma eval_shards_loop_sound shard_indices g b :
  b ∈ yielded (EvalTokenDataset.shards_loop fs self shard_indices g).1 ->
  cut_from_shard fs self b.
Proof.
  revert g. induction shard_indices as [|i rest IH]; intros g; simpl.
  - intros Hin. inversion Hin.
  - destruct (py_index _ i) as [path|e] eqn:Hidx;
      [|simpl; intros Hin; inversion Hin].
    destruct (memmap fs path 0) as [shard|e] eqn:Hmm;
      [|simpl; intros Hin; inversion Hin].
    destruct (TokenDataset._iter_shard self shard false g) as [t1 g1] eqn:Ht1.
    assert (Hfrom : forall b, b ∈ yielded t1 -> cut_from_shard fs self b).
    { intros b' Hb'. eapply cut_from_iter_shard;
        [eapply py_index_elem, Hidx|exact Hmm|rewrite Ht1; exact Hb']. }
    destruct (raised t1) eqn:Hr; simpl; [now apply Hfrom|].
    specialize (IH g1).
    destruct (EvalTokenDataset.shards_loop fs self rest g1) as [t2 g2].
    simpl in *. intros Hin.
    apply elem_of_tseq in Hin as [Hin|Hin]; auto.
Qed.

Lemma train_shards_loop_sound shard_indices g b :
  b ∈ yielded (TokenDataset.shards_loop fs self shard_indices g).1 ->
  cut_from_shard fs self b.
Proof.
  revert g. induction shard_indices as [|i rest IH]; intros g; simpl.
  - intros Hin. inversion Hin.
  - destruct (_ <=? 0); [simpl; intros Hin; inversion Hin|].
    destruct (randint 0 _ g) as [offset g1].
    destruct (py_index _ i) as [path|e] eqn:Hidx;
      [|simpl; intros Hin; inversion Hin].
    destruct (memmap fs path (offset * 2)) as [shard|e] eqn:Hmm;
      [|simpl; intros Hin; inversion Hin].
    destruct (TokenDataset._iter_shard self shard true g1) as [t1 g2] eqn:Ht1.
    assert (Hfrom : forall b, b ∈ yielded t1 -> cut_from_shard fs self b).
    { intros b' Hb'. eapply cut_from_iter_shard;
        [eapply py_index_elem, Hidx|exact Hmm|rewrite Ht1; exact Hb']. }
    destruct (raised t1) eqn:Hr; simpl; [now apply Hfrom|].
    specialize (IH g2).
    destruct (TokenDataset.shards_loop fs self rest g2) as [t2 g3].
    simpl in *. intros Hin.
    apply elem_of_tseq in Hin as [Hin|Hin]; auto.
Qed.

Lemma eval_iter_sound worker_info g b :
  b ∈ yielded (EvalTokenDataset.__iter__ fs self worker_info g).1 ->
  cut_from_shard fs self b.
Proof.
  unfold EvalTokenDataset.__iter__.
  destruct worker_info as [n|]; [destruct (n =? 1)|];
    try apply eval_shards_loop_sound.
  simpl. intros Hin. inversion Hin.
Qed.

Lemma train_iter_sound cycles g b :
  b ∈ yielded (TokenDataset.__iter__ fs self cycles g).1 ->
  cut_from_shard fs self b.
Proof.
  revert g. induction cycles as [|c IH]; intros g; simpl.
  - intros Hin. inversion Hin.
  - destruct (randperm _ g) as [idxs g1].
    pose proof (train_shards_loop_sound idxs g1) as Hloop.
    destruct (TokenDataset.shards_loop fs self idxs g1) as [t1 g2].
    destruct (raised t1) eqn:Hr; simpl in *; [now apply Hloop|].
    specialize (IH g2).
    destruct (TokenDataset.__iter__ fs self c g2) as [t2 g3].
    simpl in *. intros Hin.
    apply elem_of_tseq in Hin as [Hin|Hin]; auto.
Qed.
End StreamerSound.

(** C3. Every batch that either streamer yields is the batch of one
    contiguous run of [batch_size * (seq_len + 1)] tokens of a shard: row
    [i] of the labels is row [i] of that run without its first token, row
    [i] of the tokens is the row without its last token, and the tokens
    followed by the last label are the row of [seq_len + 1] tokens again.
    The sequence length is at least one, so that a last label exists. *)
Theorem C3_labels_are_shifted_tokens {torch : TorchRng} (fs : FileSystem)
    (dataset_dir : string) (batch_size seq_len : Z) (self : TokenDataset.t)
    (out : list string) (worker_info : option Z) (cycles : nat) (g : rng)
    (b : Batch) :
  TokenDataset.__init__ fs dataset_dir batch_size seq_len = Ok (self, out) ->
  1 <= seq_len ->
  b ∈ yielded (EvalTokenDataset.__iter__ fs self worker_info g).1 \/
  b ∈ yielded (TokenDataset.__iter__ fs self cycles g).1 ->
  cut_from_shard fs self b.
Proof.
  intros Hinit Hsl Hin.
  unfold TokenDataset.__init__ in Hinit. injection Hinit as <- _.
  destruct Hin as [Hin|Hin].
  - eapply eval_iter_sound; [reflexivity|exact Hsl|exact Hin].
  - eapply train_iter_sound; [reflexivity|exact Hsl|exact Hin].
Qed.

Lemma C3_witness :
  cut_from_shard demo_fs demo_ds ([[7; 8]; [10; 11]], [[8; 9]; [11; 12]]).
Proof.
  apply (@C3_labels_are_shifted_tokens counting_rng demo_fs "val" 2 2 demo_ds
           ["Found 2 shards of data"] None 0%nat 0%nat).
  - vm_compute. reflexivity.
  - lia.
  - left. vm_compute. right. left.
Defined.

(** ** Short shards *)

Lemma iter_shard_short {torch : TorchRng} (self : TokenDataset.t)
    (shard : Tensor1) (shuffle : bool) (g : rng) :
  Z.of_nat (length shard) < TokenDataset.toks_per_batch self ->
  (TokenDataset._iter_shard self shard shuffle g).1 = Trace [] None.
Proof.
  intros Hshort. unfold TokenDataset._iter_shard.
  destruct (Z.eqb_spec (TokenDataset.toks_per_batch self) 0); [lia|].
  rewrite Z.div_small by lia. destruct shuffle; simpl.
  - pose proof (randperm_perm 0 g) as Hperm.
    destruct (randperm 0 g) as [idxs g']. simpl in *.
    apply Permutation_nil_r in Hperm. now subst idxs.
  - reflexivity.
Qed.

(** C5, as stated, fails. A shard is opened before it is cut, and numpy
    does not open every short shard. With six tokens to the batch, the
    training streamer opens a shard of three tokens at a drawn offset of
    four tokens, beyond its end, and the opening raises; the evaluation
    streamer cannot map a shard of no tokens at all. *)
Lemma C5_counterexample :
  TokenDataset.__init__ three_token_fs "val" 2 2
  = Ok (one_shard_ds, ["Found 1 shards of data"]) /\
  Z.of_nat (length [1; 2; 3]) < TokenDataset.toks_per_batch one_shard_ds /\
  (exists msg,
     (TokenDataset.__iter__ (torch := counting_rng) three_token_fs
        one_shard_ds 1 3%nat).1 = Trace [] (Some (ValueError msg))) /\
  TokenDataset.__init__ zero_token_fs "val" 2 2
  = Ok (one_shard_ds, ["Found 1 shards of data"]) /\
  Z.of_nat (length (@nil Z)) < TokenDataset.toks_per_batch one_shard_ds /\
  (exists msg,
     (EvalTokenDataset.__iter__ (torch := counting_rng) zero_token_fs
        one_shard_ds None 0%nat).1 = Trace [] (Some (ValueError msg))).
Proof.
  split; [vm_compute; reflexivity|]. split; [vm_compute; reflexivity|].
  split; [eexists; vm_compute; reflexivity|].
  split; [vm_compute; reflexivity|]. split; [vm_compute; reflexivity|].
  eexists. vm_compute. reflexivity.
Qed.

Lemma tseq_nothing {A} (t : trace A) : tseq (Trace [] None) t = t.
Proof. destruct t. reflexivity. Qed.

Lemma iter_shard_short_in_order {torch : TorchRng} (self : TokenDataset.t)
    (shard : list Z) (g : rng) :
  Z.of_nat (length shard) < TokenDataset.toks_per_batch self ->
  TokenDataset._iter_shard self shard false g = (Trace [] None, g).
Proof.
  intros Hshort. unfold TokenDataset._iter_shard.
  destruct (Z.eqb_spec (TokenDataset.toks_per_batch self) 0); [lia|].
  rewrite Z.div_small by lia. reflexivity.
Qed.

(** C5, amended. A shard that has been opened and of which fewer than
    [toks_per_batch] tokens are available gives no batch and no exception:
    its number of slices is 0, shuffled or not. The evaluation streamer,
    which opens at offset 0, and the training streamer, which opens at the
    offset it draws, then go on with the shards that follow. *)
Theorem C5_opened_short_shard_is_skipped {torch : TorchRng} (fs : FileSystem)
    (self : TokenDataset.t) (shard : list Z) :
  Z.of_nat (length shard) < TokenDataset.toks_per_batch self ->
  (forall shuffle g,
     Z.of_nat (length shard) / TokenDataset.toks_per_batch self = 0 /\
     (TokenDataset._iter_shard self shard shuffle g).1 = Trace [] None) /\
  (forall shard_idx rest path g,
     py_index (TokenDataset.shards self) shard_idx = Ok path ->
     memmap fs path 0 = Ok shard ->
     EvalTokenDataset.shards_loop fs self (shard_idx :: rest) g
     = EvalTokenDataset.shards_loop fs self rest g) /\
  (forall shard_idx rest path g,
     py_index (TokenDataset.shards self) shard_idx = Ok path ->
     memmap fs path ((randint 0 (TokenDataset.toks_per_batch self) g).1 * 2)
     = Ok shard ->
     exists g',
       TokenDataset.shards_loop fs self (shard_idx :: rest) g
       = TokenDataset.shards_loop fs self rest g').
Proof.
  intros Hshort. split; [|split].
  - intros shuffle g. split.
    + apply Z.div_small. lia.
    + now apply iter_shard_short.
  - intros shard_idx rest path g Hidx Hopen. simpl.
    rewrite Hidx, Hopen.
    rewrite (iter_shard_short_in_order self shard g Hshort). simpl.
    destruct (EvalTokenDataset.shards_loop fs self rest g) as [t2 g2].
    now rewrite tseq_nothing.
  - intros shard_idx rest path g Hidx Hopen. simpl.
    destruct (Z.leb_spec (TokenDataset.toks_per_batch self) 0); [lia|].
    destruct (randint 0 (TokenDataset.toks_per_batch self) g)
      as [offset g1]. simpl in Hopen.
    rewrite Hidx, Hopen.
    pose proof (iter_shard_short self shard true g1 Hshort) as Hnone.
    destruct (TokenDataset._iter_shard self shard true g1) as [t1 g2].
    simpl in Hnone. subst t1. simpl.
    exists g2.
    destruct (TokenDataset.shards_loop fs self rest g2) as [t2 g3].
    now rewrite tseq_nothing.
Qed.

Lemma C5_witness :
  (forall shuffle g,
     Z.of_nat (length [1; 2; 3]) / TokenDataset.toks_per_batch one_shard_ds
     = 0 /\
     (TokenDataset._iter_shard (torch := counting_rng) one_shard_ds
        [1; 2; 3] shuffle g).1 = Trace [] None) /\
  (forall shard_idx rest path g,
     py_index (TokenDataset.shards one_shard_ds) shard_idx = Ok path ->
     memmap three_token_fs path 0 = Ok [1; 2; 3] ->
     EvalTokenDataset.shards_loop (torch := counting_rng) three_token_fs
       one_shard_ds (shard_idx :: rest) g
     = EvalTokenDataset.shards_loop (torch := counting_rng) three_token_fs
         one_shard_ds rest g) /\
  (forall shard_idx rest path g,
     py_index (TokenDataset.shards one_shard_ds) shard_idx = Ok path ->
     memmap three_token_fs path
       ((randint (TorchRng := counting_rng) 0
           (TokenDataset.toks_per_batch one_shard_ds) g).1 * 2)
     = Ok [1; 2; 3] ->
     exists g',
       TokenDataset.shards_loop (torch := counting_rng) three_token_fs
         one_shard_ds (shard_idx :: rest) g
       = TokenDataset.shards_loop (torch := counting_rng) three_token_fs
           one_shard_ds rest g').
Proof.
  apply (@C5_opened_short_shard_is_skipped counting_rng three_token_fs
           one_shard_ds [1; 2; 3]).
  vm_compute. reflexivity.
Defined.

(** The evaluation streamer passes over the opened short shard. *)
Example eval_skips_short_shard :
  (EvalTokenDataset.__iter__ (torch := counting_rng) three_token_fs
     one_shard_ds None 0%nat).1 = Trace [] None.
Proof. vm_compute. reflexivity. Qed.

(** ** The order of the shards *)

Lemma ascii_compare_spec (a b : ascii) :
  CompareSpec (N_of_ascii a = N_of_ascii b)
              (N_of_ascii a < N_of_ascii b)%N
              (N_of_ascii b < N_of_ascii a)%N
              (Ascii.compare a b).
Proof. unfold Ascii.compare. apply N.compare_spec. Qed.

Lemma string_leb_trans (s1 s2 s3 : string) :
  String.leb s1 s2 = true -> String.leb s2 s3 = true -> String.leb s1 s3 = true.
Proof.
  revert s2 s3. unfold String.leb.
  induction s1 as [|a s1 IH]; intros [|b s2] [|c s3]; simpl; try easy.
  destruct (ascii_compare_spec a b), (ascii_compare_spec b c),
    (ascii_compare_spec a c); try easy; try lia.
  apply IH.
Qed.

#[global] Instance str_le_trans : Transitive str_le.
Proof. intros s1 s2 s3. apply string_leb_trans. Qed.

#[global] Instance str_le_antisym : AntiSymm (=) str_le.
Proof. intros s1 s2. apply String.leb_antisym. Qed.

#[global] Instance str_le_total : Total str_le.
Proof. intros s1 s2. apply String.leb_total. Qed.

(** [sorted] does not depend on the order of what it is given. *)
Lemma sorted_perm (l1 l2 : list string) : l1 ≡ₚ l2 -> sorted l1 = sorted l2.
Proof.
  intros Hperm. unfold sorted.
  apply (Sorted_unique str_le); try apply Sorted_merge_sort; try apply _.
  now rewrite !merge_sort_Permutation.
Qed.

Lemma glob_bin_perm (fs1 fs2 : FileSystem) (dir : string) :
  iterdir fs1 dir ≡ₚ iterdir fs2 dir -> glob_bin fs1 dir ≡ₚ glob_bin fs2 dir.
Proof.
  intros Hperm. unfold glob_bin.
  apply Permutation_map. now rewrite Hperm.
Qed.

(** ** The evaluation streamer *)

Section EvalStreamer.
Context {torch : TorchRng}.

(** Without shuffling, [_iter_shard] does not touch the random source. *)
Lemma iter_shard_no_shuffle (self : TokenDataset.t) (shard : Tensor1) (g : rng) :
  TokenDataset._iter_shard self shard false g
  = (if TokenDataset.toks_per_batch self =? 0 then traise ZeroDivisionError
     else TokenDataset.slices_loop self shard
            (seqZ 0 (Z.of_nat (length shard) / TokenDataset.toks_per_batch self)),
     g).
Proof.
  unfold TokenDataset._iter_shard.
  now destruct (TokenDataset.toks_per_batch self =? 0).
Qed.

Lemma eval_shards_loop_rng (fs : FileSystem) (self : TokenDataset.t)
    (shard_indices : list Z) (g : rng) :
  (EvalTokenDataset.shards_loop fs self shard_indices g).2 = g.
Proof.
  induction shard_indices as [|i rest IH]; simpl; [reflexivity|].
  destruct (py_index _ i) as [path|e]; [|reflexivity].
  destruct (memmap fs path 0) as [shard|e]; [|reflexivity].
  rewrite iter_shard_no_shuffle.
  destruct (raised _); [reflexivity|].
  destruct (EvalTokenDataset.shards_loop fs self rest g) as [t2 g2].
  exact IH.
Qed.

Lemma eval_shards_loop_ext (fs1 fs2 : FileSystem) (self : TokenDataset.t)
    (shard_indices : list Z) (g1 g2 : rng) :
  (forall path offset, memmap fs1 path offset = memmap fs2 path offset) ->
  (EvalTokenDataset.shards_loop fs1 self shard_indices g1).1
  = (EvalTokenDataset.shards_loop fs2 self shard_indices g2).1.
Proof.
  intros Hmm.
  induction shard_indices as [|i rest IH]; simpl; [reflexivity|].
  destruct (py_index _ i) as [path|e]; [|reflexivity].
  rewrite Hmm.
  destruct (memmap fs2 path 0) as [shard|e]; [|reflexivity].
  rewrite !iter_shard_no_shuffle.
  destruct (raised _); [reflexivity|].
  destruct (EvalTokenDataset.shards_loop fs1 self rest g1) as [t1 g1'].
  destruct (EvalTokenDataset.shards_loop fs2 self rest g2) as [t2 g2'].
  simpl in *. now rewrite IH.
Qed.

Lemma eval_iter_ext (fs1 fs2 : FileSystem) (self : TokenDataset.t)
    (worker_info : option Z) (g1 g2 : rng) :
  (forall path offset, memmap fs1 path offset = memmap fs2 path offset) ->
  (EvalTokenDataset.__iter__ fs1 self worker_info g1).1
  = (EvalTokenDataset.__iter__ fs2 self worker_info g2).1.
Proof.
  intros Hmm. unfold EvalTokenDataset.__iter__.
  destruct worker_info as [n|]; [destruct (n =? 1)|];
    auto using eval_shards_loop_ext.
Qed.

Lemma eval_iter_rng (fs : FileSystem) (self : TokenDataset.t)
    (worker_info : option Z) (g : rng) :
  (EvalTokenDataset.__iter__ fs self worker_info g).2 = g.
Proof.
  unfold EvalTokenDataset.__iter__.
  destruct worker_info as [n|]; [destruct (n =? 1)|];
    auto using eval_shards_loop_rng.
Qed.
End EvalStreamer.

(** C6. The evaluation streamer is deterministic. Two passes over a
    directory with the same entries (listed by the system in whatever
    order) and the same shard contents, started in any two states of the
    random source, build the same dataset and yield the same batches in
    the same order; a pass leaves the random source as it found it. *)
Theorem C6_eval_streamer_deterministic {torch : TorchRng} (fs1 fs2 : FileSystem)
    (dataset_dir : string) (batch_size seq_len : Z)
    (ds1 ds2 : TokenDataset.t) (out1 out2 : list string)
    (worker_info : option Z) (g1 g2 : rng) :
  iterdir fs1 dataset_dir ≡ₚ iterdir fs2 dataset_dir ->
  (forall path offset, memmap fs1 path offset = memmap fs2 path offset) ->
  TokenDataset.__init__ fs1 dataset_dir batch_size seq_len = Ok (ds1, out1) ->
  TokenDataset.__init__ fs2 dataset_dir batch_size seq_len = Ok (ds2, out2) ->
  ds1 = ds2 /\
  (EvalTokenDataset.__iter__ fs1 ds1 worker_info g1).1
  = (EvalTokenDataset.__iter__ fs2 ds2 worker_info g2).1 /\
  (EvalTokenDataset.__iter__ fs1 ds1 worker_info g1).2 = g1.
Proof.
  intros Hdir Hmm Hinit1 Hinit2.
  unfold TokenDataset.__init__ in *.
  injection Hinit1 as <- _. injection Hinit2 as <- _.
  rewrite (sorted_perm _ _ (glob_bin_perm fs1 fs2 dataset_dir Hdir)).
  split; [reflexivity|]. split.
  - now apply eval_iter_ext.
  - apply eval_iter_rng.
Qed.

Lemma C6_witness :
  demo_ds = demo_ds /\
  (EvalTokenDataset.__iter__ demo_fs demo_ds (Some 1) 0%nat).1
  = (EvalTokenDataset.__iter__ demo_fs_relisted demo_ds (Some 1) 5%nat).1 /\
  (EvalTokenDataset.__iter__ demo_fs demo_ds (Some 1) 0%nat).2 = 0%nat.
Proof.
  apply (@C6_eval_streamer_deterministic counting_rng demo_fs demo_fs_relisted
           "val" 2 2 demo_ds demo_ds
           ["Found 2 shards of data"] ["Found 2 shards of data"]
           (Some 1) 0%nat 5%nat).
  - simpl. symmetry. apply (Permutation_cons_append ["b.bin"; "notes.txt"] "a.bin").
  - intros path offset. reflexivity.
  - vm_compute. reflexivity.
  - vm_compute. reflexivity.
Defined.

(** ** Construction over a directory without shards *)

Example init_without_shards :
  TokenDataset.__init__ empty_fs "val" 4 8
  = Ok ({| TokenDataset.shards := [];
           TokenDataset.batch_size := 4;
           TokenDataset.seq_len := 8;
           TokenDataset.toks_per_batch := 36 |},
        ["Found 0 shards of data"]).
Proof. vm_compute. reflexivity. Qed.

(** C4, as stated, fails: over a directory that holds no [*.bin] file the
    constructor does not raise. *)
Lemma C4_counterexample :
  glob_bin empty_fs "val" = [] /\
  ~ raises (TokenDataset.__init__ empty_fs "val" 4 8).
Proof.
  split; [vm_compute; reflexivity|].
  intros [e He]. vm_compute in He. discriminate He.
Qed.

(** C4, amended. Constructing the dataset over a directory without shard
    files succeeds: the dataset has an empty list of shards, and the
    constructor reports that it found 0 shards. *)
Theorem C4_init_without_shards_succeeds (fs : FileSystem)
    (dataset_dir : string) (batch_size seq_len : Z) :
  glob_bin fs dataset_dir = [] ->
  TokenDataset.__init__ fs dataset_dir batch_size seq_len
  = Ok ({| TokenDataset.shards := [];
           TokenDataset.batch_size := batch_size;
           TokenDataset.seq_len := seq_len;
           TokenDataset.toks_per_batch := batch_size * (seq_len + 1) |},
        ["Found 0 shards of data"]).
Proof.
  intros Hglob. unfold TokenDataset.__init__. rewrite Hglob. reflexivity.
Qed.

Lemma C4_witness :
  TokenDataset.__init__ empty_fs "val" 4 8
  = Ok ({| TokenDataset.shards := [];
           TokenDataset.batch_size := 4;
           TokenDataset.seq_len := 8;
           TokenDataset.toks_per_batch := 4 * (8 + 1) |},
        ["Found 0 shards of data"]).
Proof.
  apply (C4_init_without_shards_succeeds empty_fs "val" 4 8).
  vm_compute. reflexivity.
Defined.

(** ** The quantization configurator *)

(** C8. An unrecognised name makes [quantize_model] raise [ValueError]
    (the configuration error of the script) with a message that carries the
    name; each recognised name and the absent name return a model. *)
Theorem C8_quantize_model_names {sub : Subclass} (model : nn_Module) :
  quantize_model model None = Ok model /\
  (forall q, q ∈ recognized_quantizations ->
     exists model', quantize_model model (Some q) = Ok model') /\
  (forall q, q ∉ recognized_quantizations ->
     quantize_model model (Some q)
     = Raise (ValueError (String.append "Unsupported quantization=" (repr q)))).
Proof.
  split; [reflexivity|]. split.
  - intros q Hq. unfold recognized_quantizations in Hq.
    repeat (apply elem_of_cons in Hq as [->|Hq]; [eexists; reflexivity|]).
    inversion Hq.
  - intros q Hq. unfold recognized_quantizations in Hq.
    repeat (apply not_elem_of_cons in Hq as [? Hq]).
    unfold quantize_model.
    repeat match goal with
           | |- context [String.eqb q ?s] =>
               destruct (String.eqb_spec q s); [congruence|]
           end.
    reflexivity.
Qed.

Lemma C8_witness :
  exists model',
    quantize_model (sub := demo_subclass) ["llama"] (Some "int8_activation_int8")
    = Ok model'.
Proof.
  apply (@C8_quantize_model_names demo_subclass ["llama"]).
  vm_compute. right. left.
Defined.

Example quantize_model_unknown :
  quantize_model (sub := demo_subclass) [] (Some "int2")
  = Raise (ValueError "Unsupported quantization='int2'").
Proof. reflexivity. Qed.

Example quantize_model_int4 :
  quantize_model (sub := demo_subclass) [] (Some "int4") = Ok ["int4"].
Proof. reflexivity. Qed.

(** ** The learning rate schedule *)

Lemma py_int_le (x : Q) (n : Z) :
  0 <= n -> (x <= inject_Z n)%Q -> py_int x <= n.
Proof.
  intros Hn Hle. unfold py_int.
  destruct x as [num den]. unfold Qle in Hle. simpl in *.
  destruct (Z.le_gt_cases 0 num) as [Hpos|Hneg].
  - rewrite Z.quot_div_nonneg by lia.
    apply Z.div_le_upper_bound; lia.
  - pose proof (Z.quot_opp_l num (Z.pos den) ltac:(lia)) as Hopp.
    pose proof (Z.quot_pos (- num) (Z.pos den) ltac:(lia) ltac:(lia)).
    lia.
Qed.

Lemma scale_le (n : Z) (y : Q) :
  0 < n -> (y <= 1)%Q -> (inject_Z n * y <= inject_Z n)%Q.
Proof.
  intros Hn Hy. destruct y as [num den].
  unfold Qle in *. simpl in *. nia.
Qed.

Section Schedule.
Context {math : Math}.

(** A schedule built from a decay fraction that is not negative and
    fractions that sum to at most one has its boundaries in order. *)
Lemma init_boundaries (base_lr : Q) (total_steps : Z) (warmup decay : Q)
    (decay_type : string) (s : LRSchedule.t) :
  (0 <= decay)%Q -> (warmup + decay <= 1)%Q -> 0 < total_steps ->
  LRSchedule.__init__ base_lr total_steps warmup decay decay_type = Ok s ->
  LRSchedule.lr s = base_lr /\ LRSchedule.t3 s = total_steps /\
  LRSchedule.t1 s <= LRSchedule.t3 s /\ LRSchedule.t2 s <= LRSchedule.t3 s.
Proof.
  intros Hd Hsum Hn. unfold LRSchedule.__init__. simpl.
  destruct (negb (_ <=? _)); [discriminate|].
  destruct (negb (_ || _)); [discriminate|].
  intros [= <-]. simpl. repeat split.
  - apply py_int_le; [lia|]. apply scale_le; [exact Hn|lra].
  - apply py_int_le; [lia|]. apply scale_le; [exact Hn|lra].
Qed.

Lemma get_lr_warmup_start (s : LRSchedule.t) :
  0 < LRSchedule.t1 s ->
  exists v, LRSchedule.get_lr s 0 = Ok v /\ (v == 0)%Q.
Proof.
  intros Ht1. unfold LRSchedule.get_lr, float_div_int.
  destruct (Z.ltb_spec 0 (LRSchedule.t1 s)); [|lia].
  destruct (Z.eqb_spec (LRSchedule.t1 s) 0); [lia|].
  eexists. split; [reflexivity|].
  unfold Qeq. simpl. lia.
Qed.

Lemma get_lr_constant (s : LRSchedule.t) (step : Z) :
  LRSchedule.t1 s <= step < LRSchedule.t2 s ->
  LRSchedule.get_lr s step = Ok (LRSchedule.lr s).
Proof.
  intros [Hlo Hhi]. unfold LRSchedule.get_lr.
  destruct (Z.ltb_spec step (LRSchedule.t1 s)); [lia|].
  destruct (Z.ltb_spec step (LRSchedule.t2 s)); [reflexivity|lia].
Qed.

Lemma get_lr_end (s : LRSchedule.t) (step : Z) :
  LRSchedule.t1 s <= step -> LRSchedule.t2 s <= step ->
  LRSchedule.t3 s <= step ->
  LRSchedule.get_lr s step = Ok 0%Q.
Proof.
  intros H1 H2 H3. unfold LRSchedule.get_lr.
  destruct (Z.ltb_spec step (LRSchedule.t1 s)); [lia|].
  destruct (Z.ltb_spec step (LRSchedule.t2 s)); [lia|].
  destruct (Z.ltb_spec step (LRSchedule.t3 s)); [lia|reflexivity].
Qed.
End Schedule.

(** C2. For a schedule that was constructed (the assertions passed) from a
    positive number of steps and fractions with [decay >= 0] and
    [warmup + decay <= 1]: the rate at step 0 is 0 when there is a warmup
    ([t1 > 0]); it is the base rate at every step of the constant phase
    [t1 <= step < t2]; and it is 0 at the last step [total_steps]. *)
Theorem C2_schedule_boundary_values {math : Math} (base_lr : Q) (total_steps : Z)
    (warmup decay : Q) (decay_type : string) (s : LRSchedule.t) :
  (0 <= decay)%Q -> (warmup + decay <= 1)%Q -> 0 < total_steps ->
  LRSchedule.__init__ base_lr total_steps warmup decay decay_type = Ok s ->
  (0 < LRSchedule.t1 s ->
     exists v, LRSchedule.get_lr s 0 = Ok v /\ (v == 0)%Q) /\
  (forall step, LRSchedule.t1 s <= step < LRSchedule.t2 s ->
     LRSchedule.get_lr s step = Ok base_lr) /\
  LRSchedule.get_lr s total_steps = Ok 0%Q.
Proof.
  intros Hd Hsum Hn Hinit.
  destruct (init_boundaries _ _ _ _ _ _ Hd Hsum Hn Hinit)
    as (Hlr & Ht3 & H13 & H23).
  split; [apply get_lr_warmup_start|]. split.
  - intros step Hstep. rewrite <- Hlr. now apply get_lr_constant.
  - apply get_lr_end; lia.
Qed.

Example demo_schedule_init :
  LRSchedule.__init__ (3 # 10000) 10 (2 # 10) (3 # 10) "linear"
  = Ok demo_schedule.
Proof. vm_compute. reflexivity. Qed.

Lemma C2_witness :
  (0 < LRSchedule.t1 demo_schedule ->
     exists v, LRSchedule.get_lr (math := demo_math) demo_schedule 0 = Ok v
               /\ (v == 0)%Q) /\
  (forall step,
     LRSchedule.t1 demo_schedule <= step < LRSchedule.t2 demo_schedule ->
     LRSchedule.get_lr (math := demo_math) demo_schedule step = Ok (3 # 10000)) /\
  LRSchedule.get_lr (math := demo_math) demo_schedule 10 = Ok 0%Q.
Proof.
  apply (@C2_schedule_boundary_values demo_math (3 # 10000) 10 (2 # 10) (3 # 10)
           "linear").
  - vm_compute. discriminate.
  - vm_compute. discriminate.
  - lia.
  - vm_compute. reflexivity.
Defined.

(** C7. Without warmup ([t1 = 0]) the rate is the base rate at every step
    of [0 <= step < t2], and no step that is not negative divides by zero:
    [get_lr] returns a rate there. *)
Theorem C7_no_warmup_no_division {math : Math} (s : LRSchedule.t) :
  LRSchedule.t1 s = 0 ->
  (forall step, 0 <= step < LRSchedule.t2 s ->
     LRSchedule.get_lr s step = Ok (LRSchedule.lr s)) /\
  (forall step, 0 <= step ->
     LRSchedule.get_lr s step <> Raise ZeroDivisionError /\
     exists v, LRSchedule.get_lr s step = Ok v).
Proof.
  intros Ht1. split.
  - intros step Hstep. apply get_lr_constant. lia.
  - intros step Hstep.
    assert (Hok : exists v, LRSchedule.get_lr s step = Ok v).
    { unfold LRSchedule.get_lr, int_div_int.
      destruct (Z.ltb_spec step (LRSchedule.t1 s)); [lia|].
      destruct (Z.ltb_spec step (LRSchedule.t2 s)); [eauto|].
      destruct (Z.ltb_spec step (LRSchedule.t3 s)); [|eauto].
      destruct (Z.eqb_spec (LRSchedule.t3 s - LRSchedule.t2 s) 0); [lia|].
      simpl.
      destruct (String.eqb _ "linear"); [eauto|].
      destruct (String.eqb _ "cosine"); eauto. }
    split; [|exact Hok].
    destruct Hok as [v ->]. discriminate.
Qed.

Lemma C7_witness :
  (forall step, 0 <= step < LRSchedule.t2 demo_schedule_no_warmup ->
     LRSchedule.get_lr (math := demo_math) demo_schedule_no_warmup step
     = Ok (LRSchedule.lr demo_schedule_no_warmup)) /\
  (forall step, 0 <= step ->
     LRSchedule.get_lr (math := demo_math) demo_schedule_no_warmup step
     <> Raise ZeroDivisionError /\
     exists v,
       LRSchedule.get_lr (math := demo_math) demo_schedule_no_warmup step = Ok v).
Proof.
  apply (@C7_no_warmup_no_division demo_math demo_schedule_no_warmup).
  reflexivity.
Defined.

Example demo_schedule_no_warmup_init :
  LRSchedule.__init__ (3 # 10000) 10 0 (3 # 10) "cosine"
  = Ok demo_schedule_no_warmup.
Proof. vm_compute. reflexivity. Qed.

(** The division is there: before step 0 a schedule without warmup
    divides by [t1 = 0]. *)
Example get_lr_negative_step_no_warmup :
  LRSchedule.get_lr (math := demo_math) demo_schedule_no_warmup (-1)
  = Raise ZeroDivisionError.
Proof. reflexivity. Qed.

Example get_lr_decay_step :
  LRSchedule.get_lr (math := demo_math) demo_schedule 8
  = Ok ((3 # 10000) * (1 - inject_Z (8 - 7) / inject_Z (10 - 7)))%Q.
Proof. reflexivity. Qed.

(** ** The loss and the accumulation of gradients *)

Section Accumulation.
Context {net : Net}.

Lemma kept_all (f : list Q -> Z -> Q) (L : list (list Q)) (T : list Z) :
  length L = length T ->
  Forall (fun y => 0 <= y) T ->
  filter (fun p => p.2 <> -100) (zip L T) = zip L T /\
  map (fun p => f p.1 p.2) (zip L T) = zip_with f L T /\
  length (zip L T) = length T.
Proof.
  revert T. induction L as [|x L IH]; intros [|y T] Hlen Hpos;
    try discriminate; [repeat split|].
  simpl in Hlen. injection Hlen as Hlen.
  apply Forall_cons in Hpos as [Hy Hpos].
  destruct (IH T Hlen Hpos) as (Hf & Hm & Hl).
  repeat split.
  - simpl zip. rewrite filter_cons_True by (simpl; lia). now rewrite Hf.
  - simpl. now rewrite Hm.
  - simpl. now rewrite Hl.
Qed.

(** On labels that are token ids, the loss is the mean over the tokens
    of the batch. *)
Lemma get_loss_mean (model : Params) (mode : bool) (tokens labels : Tensor2)
    (l : Loss) :
  get_loss model mode tokens labels = Ok l ->
  Forall (fun y => 0 <= y) (concat labels) ->
  item l = mean_token_cross_entropy model mode tokens labels.
Proof.
  unfold get_loss, cross_entropy, mean_token_cross_entropy.
  destruct (Nat.eqb_spec (length (concat (logits model mode tokens)))
                         (length (concat labels))) as [Hlen|];
    [|discriminate].
  intros [= <-] Hpos. simpl.
  destruct (kept_all neg_log_softmax _ _ Hlen Hpos) as (Hf & Hm & Hl).
  now rewrite Hf, Hm, Hl.
Qed.

Lemma backward_component (l : Loss) (st : TrainState) (j : nat) :
  (grad_component (grad (backward l st)) j
   == grad_component (grad st) j + d_params l j)%Q.
Proof.
  unfold backward, grad_component, vadd. simpl.
  destruct (grad st); simpl; lra.
Qed.

Lemma accumulation_loop_spec (n : nat) (st st' : TrainState)
    (dloader dloader' : trace Batch) (loss0 loss' : option Loss) :
  accumulation_loop n st dloader loss0 = Ok (st', dloader', loss') ->
  exists (batches : list Batch) (losses : list Loss),
    length batches = n /\
    yielded dloader = batches ++ yielded dloader' /\
    Forall2 (fun b l => get_loss (params st) (training st) b.1 b.2 = Ok l)
            batches losses /\
    loss' = from_option Some loss0 (last losses) /\
    params st' = params st /\
    training st' = training st /\
    ((0 < n)%nat \/ is_Some (grad st) -> is_Some (grad st')) /\
    forall j, (grad_component (grad st') j
               == grad_component (grad st) j
                  + Qsum (map (fun l => d_params l j) losses))%Q.
Proof.
  revert st dloader loss0.
  induction n as [|n IH]; intros st dloader loss0; simpl.
  - intros [= <- <- <-]. exists [], []. simpl.
    repeat split; try constructor.
    + intros [Hn|Hsome]; [lia|exact Hsome].
    + intros j. lra.
  - unfold next.
    destruct (yielded dloader) as [|[tokens labels] rest] eqn:Hy;
      [destruct (raised dloader); discriminate|].
    simpl.
    destruct (get_loss (params st) (training st) tokens labels)
      as [l|e] eqn:Hloss; [|discriminate].
    simpl. intros Hrec.
    destruct (IH _ _ _ Hrec)
      as (batches & losses & Hlen & Hyield & Hall & Hlast & Hp & Ht & Hsome & Hg).
    exists ((tokens, labels) :: batches), (l :: losses).
    simpl in *. repeat split.
    + now rewrite Hlen.
    + now rewrite Hyield.
    + constructor; [exact Hloss|exact Hall].
    + rewrite last_cons. rewrite Hlast. now destruct (last losses).
    + exact Hp.
    + exact Ht.
    + intros _. apply Hsome. right. destruct (grad st); simpl; eauto.
    + intros j. rewrite (Hg j).
      pose proof (backward_component l st j) as Hb. simpl in Hb. lra.
Qed.
End Accumulation.

(** C1. The accumulation of [g >= 1] sub-steps computes, for each of the
    next [g] batches, the mean token-level cross-entropy of that batch as
    its loss and adds the gradient of that loss to the accumulated
    gradient: afterwards every component of the gradient is its former
    value plus the sum of the [g] per-sub-step gradients. Neither the loss
    nor the gradient is divided by [g]. *)
Theorem C1_accumulation_sums_gradients {net : Net} (g : Z) (st st' : TrainState)
    (dloader dloader' : trace Batch) (loss0 loss' : option Loss) :
  1 <= g ->
  accumulate g st dloader loss0 = Ok (st', dloader', loss') ->
  accumulated_sum g st st' dloader dloader' loss'.
Proof.
  intros Hg Hacc. unfold accumulate in Hacc.
  destruct (accumulation_loop_spec _ _ _ _ _ _ _ Hacc)
    as (batches & losses & Hlen & Hyield & Hall & Hlast & Hp & Ht & Hsome & Hsum).
  exists batches, losses. repeat split; try assumption.
  - clear -Hall. induction Hall as [|b l bs ls Hl _ IH]; constructor.
    + split; [exact Hl|]. destruct b as [tokens labels]. simpl in *.
      now apply get_loss_mean.
    + exact IH.
  - rewrite Hlast. apply Forall2_length in Hall.
    destruct losses as [|l losses] using rev_ind.
    + simpl in Hall. lia.
    + now rewrite last_snoc.
  - destruct Hsome as [acc Hacc']; [left; lia|].
    exists acc. split; [exact Hacc'|].
    intros j. specialize (Hsum j). rewrite Hacc' in Hsum. exact Hsum.
Qed.


Example demo_dloader_batches :
  demo_dloader
  = Trace [ ([[2; 3]; [5; 6]], [[3; 4]; [6; 7]]);
            ([[24; 25]; [27; 28]], [[25; 26]; [28; 29]]) ] None.
Proof. vm_compute. reflexivity. Qed.

Lemma C1_witness :
  exists st' dloader' loss',
    accumulate (net := demo_net) 2 (demo_state true) demo_dloader None
    = Ok (st', dloader', loss') /\
    accumulated_sum 2 (demo_state true) st' demo_dloader dloader' loss'.
Proof.
  eexists _, _, _. split.
  - vm_compute. reflexivity.
  - apply (@C1_accumulation_sums_gradients demo_net 2 (demo_state true) _
             demo_dloader _ None).
    + lia.
    + vm_compute. reflexivity.
Defined.

(** Two sub-steps of a loss whose gradient is 1 leave a gradient of 2, and
    the loss of the second sub-step as [loss]. *)
Example accumulate_twice :
  match accumulate (net := demo_net) 2 (demo_state true) demo_dloader None with
  | Ok (st', _, Some loss) =>
      (grad_component (grad st') 0 == 2)%Q /\ (item loss == 1)%Q
  | _ => False
  end.
Proof. vm_compute. split; reflexivity. Qed.

(** ** The evaluation block *)

Section Evaluation.
Context {net : Net} {torch : TorchRng}.

(** The loop counts the batches it is given. *)
Lemma eval_loop_count (model : Params) (batches : list Batch)
    (total_loss : Q) (n_batches : Z) (total' : Q) (n' : Z) :
  eval_loop model batches total_loss n_batches = Ok (total', n') ->
  n' = n_batches + Z.of_nat (length batches).
Proof.
  revert total_loss n_batches.
  induction batches as [|[tokens labels] rest IH];
    intros total_loss n_batches; simpl.
  - intros [= _ <-]. lia.
  - destruct (get_loss model false tokens labels) as [l|e]; [|discriminate].
    simpl. intros Hrec. apply IH in Hrec. lia.
Qed.

(** The block touches neither the parameters nor the accumulated
    gradients, however it ends. *)
Lemma evaluation_block_frame (fs : FileSystem) (val_dataset_dir : string)
    (batch_size seq_len step : Z) (st : TrainState) (g : rng) :
  params (evaluation_block fs val_dataset_dir batch_size seq_len step st g).1
  = params st /\
  grad (evaluation_block fs val_dataset_dir batch_size seq_len step st g).1
  = grad st.
Proof.
  unfold evaluation_block. simpl.
  destruct (eval_loop _ _ _ _) as [[total n]|e]; [|now split].
  destruct (raised _); [now split|].
  destruct (float_div_int total n); now split.
Qed.

(** A block that completes ends with [model.train()]. *)
Lemma evaluation_block_ends_training (fs : FileSystem)
    (val_dataset_dir : string) (batch_size seq_len step : Z)
    (st : TrainState) (g : rng) (val_loss : Q) :
  (evaluation_block fs val_dataset_dir batch_size seq_len step st g).2
  = Ok val_loss ->
  training
    (evaluation_block fs val_dataset_dir batch_size seq_len step st g).1
  = true.
Proof.
  unfold evaluation_block. simpl.
  destruct (eval_loop _ _ _ _) as [[total n]|e]; [|discriminate].
  destruct (raised _); [discriminate|].
  destruct (float_div_int total n); [reflexivity|discriminate].
Qed.

(** A block that completes has seen at least one batch. *)
Lemma evaluation_block_ok_batches (fs : FileSystem)
    (val_dataset_dir : string) (batch_size seq_len step : Z)
    (st : TrainState) (g : rng) (val_ds : TokenDataset.t)
    (out : list string) (val_loss : Q) :
  TokenDataset.__init__ fs val_dataset_dir batch_size seq_len
  = Ok (val_ds, out) ->
  (evaluation_block fs val_dataset_dir batch_size seq_len step st g).2
  = Ok val_loss ->
  yielded (EvalTokenDataset.__iter__ fs val_ds (Some 1) g).1 <> [].
Proof.
  intros Hinit. unfold evaluation_block. rewrite Hinit.
  destruct (eval_loop _ _ _ _) as [[total n]|e] eqn:Hloop;
    [|discriminate].
  apply eval_loop_count in Hloop.
  destruct (raised _); [discriminate|].
  unfold float_div_int.
  destruct (Z.eqb_spec n 0) as [Hn|Hn]; [discriminate|].
  intros _ Hnil. rewrite Hnil in Hloop. simpl in Hloop. lia.
Qed.

(** The evaluation streamer over shards that are all too short for one
    batch yields nothing and ends normally. *)
Lemma eval_shards_loop_short (fs : FileSystem) (self : TokenDataset.t)
    (shard_indices : list Z) (g : rng) :
  Forall (fun path => exists shard,
            memmap fs path 0 = Ok shard /\
            Z.of_nat (length shard) < TokenDataset.toks_per_batch self)
         (TokenDataset.shards self) ->
  Forall (fun i => 0 <= i < Z.of_nat (length (TokenDataset.shards self)))
         shard_indices ->
  (EvalTokenDataset.shards_loop fs self shard_indices g).1 = Trace [] None.
Proof.
  intros Hshort Hidx. revert g.
  induction Hidx as [|i rest Hi _ IH]; intros g; simpl; [reflexivity|].
  unfold py_index.
  destruct (Z.ltb_spec i 0); [lia|].
  destruct (Z.ltb_spec i 0); [lia|].
  destruct (Z.leb_spec (Z.of_nat (length (TokenDataset.shards self))) i);
    [lia|]. simpl.
  destruct (TokenDataset.shards self !! Z.to_nat i) as [path|] eqn:Hpath.
  - rewrite Forall_forall in Hshort.
    destruct (Hshort path) as [shard [Hmm Hlen]].
    { eapply list_elem_of_lookup_2, Hpath. }
    rewrite Hmm.
    pose proof (iter_shard_short self shard false g Hlen) as Hnone.
    destruct (TokenDataset._iter_shard self shard false g) as [t1 g1].
    simpl in Hnone. subst t1. simpl.
    specialize (IH g1).
    destruct (EvalTokenDataset.shards_loop fs self rest g1) as [t2 g2].
    simpl in *. now subst t2.
  - apply lookup_ge_None in Hpath. lia.
Qed.
End Evaluation.

Lemma eval_iter_short {torch : TorchRng} (fs : FileSystem) (self : TokenDataset.t)
    (g : rng) :
  Forall (fun path => exists shard,
            memmap fs path 0 = Ok shard /\
            Z.of_nat (length shard) < TokenDataset.toks_per_batch self)
         (TokenDataset.shards self) ->
  (EvalTokenDataset.__iter__ fs self (Some 1) g).1 = Trace [] None.
Proof.
  intros Hshort. unfold EvalTokenDataset.__iter__. simpl.
  apply eval_shards_loop_short; [exact Hshort|].
  apply Forall_forall. intros i Hi. apply elem_of_seqZ in Hi. lia.
Qed.

Lemma evaluation_block_no_batches {net : Net} {torch : TorchRng} (fs : FileSystem)
    (val_dataset_dir : string) (batch_size seq_len step : Z)
    (st : TrainState) (g : rng) (val_ds : TokenDataset.t) (out : list string) :
  TokenDataset.__init__ fs val_dataset_dir batch_size seq_len
  = Ok (val_ds, out) ->
  (EvalTokenDataset.__iter__ fs val_ds (Some 1) g).1 = Trace [] None ->
  evaluation_block fs val_dataset_dir batch_size seq_len step st g
  = (set_mode false st, Raise ZeroDivisionError).
Proof.
  intros Hinit Hnone. unfold evaluation_block. rewrite Hinit, Hnone.
  reflexivity.
Qed.






(** The two situations of the claim: every shard is too short for a
    batch, or there is no shard. *)
Lemma evaluation_block_short_shards {net : Net} {torch : TorchRng} (fs : FileSystem)
    (val_dataset_dir : string) (batch_size seq_len step : Z)
    (st : TrainState) (g : rng) (val_ds : TokenDataset.t) (out : list string) :
  TokenDataset.__init__ fs val_dataset_dir batch_size seq_len
  = Ok (val_ds, out) ->
  Forall (fun path => exists shard,
            memmap fs path 0 = Ok shard /\
            Z.of_nat (length shard) < TokenDataset.toks_per_batch val_ds)
         (TokenDataset.shards val_ds) ->
  (evaluation_block fs val_dataset_dir batch_size seq_len step st g).2
  = Raise ZeroDivisionError.
Proof.
  intros Hinit Hshort.
  rewrite (evaluation_block_no_batches _ _ _ _ _ _ _ _ _ Hinit
             (eval_iter_short fs val_ds g Hshort)).
  reflexivity.
Qed.

Example evaluation_block_empty_directory :
  evaluation_block (net := demo_net) (torch := counting_rng)
    empty_fs "val" 2 2 100 (demo_state true) 0%nat
  = (demo_state false, Raise ZeroDivisionError).
Proof. vm_compute. reflexivity. Qed.

Example evaluation_block_demo :
  match (evaluation_block (net := demo_net) (torch := counting_rng)
           demo_fs "val" 2 2 100 (demo_state true) 0%nat).2 with
  | Ok val_loss => (val_loss == 1)%Q
  | Raise _ => False
  end.
Proof. vm_compute. reflexivity. Qed.

(** * More properties *)

(** ** Whole slices of a shard *)

Lemma py_slice_in_range {A} (l : list A) (a b : Z) :
  0 <= a -> a <= b -> b <= Z.of_nat (length l) ->
  py_slice l a b = take (Z.to_nat (b - a)) (drop (Z.to_nat a) l) /\
  Z.of_nat (length (py_slice l a b)) = b - a.
Proof.
  intros Ha Hab Hb. unfold py_slice.
  rewrite !slice_bound_nonneg by lia.
  rewrite !Z.min_l by lia. split; [reflexivity|].
  rewrite length_take, length_drop. lia.
Qed.

Lemma slice_in_range (self : TokenDataset.t) (shard : Tensor1) (k : Z) :
  0 < TokenDataset.toks_per_batch self ->
  0 <= k < n_slices_of self shard ->
  Z.of_nat (length (py_slice shard (k * TokenDataset.toks_per_batch self)
                      ((k + 1) * TokenDataset.toks_per_batch self)))
  = TokenDataset.toks_per_batch self.
Proof.
  intros Htpb [Hk0 Hk]. unfold n_slices_of in Hk.
  pose proof (Z.mul_div_le (Z.of_nat (length shard))
                (TokenDataset.toks_per_batch self) Htpb) as Hle.
  destruct (py_slice_in_range shard (k * TokenDataset.toks_per_batch self)
              ((k + 1) * TokenDataset.toks_per_batch self)) as [_ Hlen];
    nia.
Qed.

Lemma sizes_ok_tpb (self : TokenDataset.t) :
  sizes_ok self -> 0 < TokenDataset.toks_per_batch self.
Proof. intros (Hbs & Hsl & Htpb). nia. Qed.

Lemma view_in_range (self : TokenDataset.t) (slice : Tensor1) :
  sizes_ok self ->
  Z.of_nat (length slice) = TokenDataset.toks_per_batch self ->
  view slice (TokenDataset.batch_size self) (TokenDataset.seq_len self + 1)
  = Ok (rows (Z.to_nat (TokenDataset.batch_size self))
             (Z.to_nat (TokenDataset.seq_len self + 1)) slice).
Proof.
  intros (Hbs & Hsl & Htpb) Hlen. unfold view.
  destruct (Z.ltb_spec (TokenDataset.batch_size self) (-1)); [lia|].
  destruct (Z.ltb_spec (TokenDataset.seq_len self + 1) (-1)); [lia|].
  destruct (Z.eqb_spec (TokenDataset.batch_size self) (-1)); [lia|].
  destruct (Z.eqb_spec (TokenDataset.seq_len self + 1) (-1)); [lia|].
  simpl.
  destruct (Z.eqb_spec (TokenDataset.batch_size self
                        * (TokenDataset.seq_len self + 1))
                       (Z.of_nat (length slice))); [reflexivity|lia].
Qed.

(** Over slice indices that are all in range the loop of [_iter_shard]
    yields one batch per index and ends normally. *)
Lemma slices_loop_in_range (self : TokenDataset.t) (shard : Tensor1)
    (slice_indices : list Z) :
  sizes_ok self ->
  Forall (fun k => 0 <= k < n_slices_of self shard) slice_indices ->
  TokenDataset.slices_loop self shard slice_indices
  = Trace (map (batch_at self shard) slice_indices) None.
Proof.
  intros Hok Hall. induction Hall as [|k rest Hk _ IH]; [reflexivity|].
  simpl. rewrite view_in_range;
    [|exact Hok|apply slice_in_range; [now apply sizes_ok_tpb|exact Hk]].
  rewrite IH. reflexivity.
Qed.

Lemma seqZ_in_range (n : Z) : Forall (fun k => 0 <= k < n) (seqZ 0 n).
Proof. apply Forall_forall. intros k Hk. apply elem_of_seqZ in Hk. lia. Qed.

Lemma n_slices_nonneg (self : TokenDataset.t) (shard : Tensor1) :
  0 < TokenDataset.toks_per_batch self -> 0 <= n_slices_of self shard.
Proof. intros Htpb. unfold n_slices_of. apply Z.div_pos; lia. Qed.

Section WholeSlices.
Context {torch : TorchRng}.
Variable self : TokenDataset.t.
Hypothesis Hok : sizes_ok self.

(** What [_iter_shard] does on sizes that make sense: some arrangement of
    the slice indices, one batch for each, no exception. *)
Lemma iter_shard_batches (shard : Tensor1) (shuffle : bool) (g : rng) :
  exists slice_indices,
    slice_indices ≡ₚ seqZ 0 (n_slices_of self shard) /\
    (shuffle = false -> slice_indices = seqZ 0 (n_slices_of self shard)) /\
    (TokenDataset._iter_shard self shard shuffle g).1
    = Trace (map (batch_at self shard) slice_indices) None.
Proof.
  pose proof (sizes_ok_tpb self Hok) as Htpb.
  pose proof (n_slices_nonneg self shard Htpb) as Hn.
  unfold TokenDataset._iter_shard.
  destruct (Z.eqb_spec (TokenDataset.toks_per_batch self) 0); [lia|].
  fold (n_slices_of self shard).
  destruct shuffle.
  - destruct (Z.ltb_spec (n_slices_of self shard) 0); [lia|].
    pose proof (randperm_perm (n_slices_of self shard) g) as Hperm.
    destruct (randperm (n_slices_of self shard) g) as [idxs g']. simpl in *.
    exists idxs. split; [exact Hperm|]. split; [discriminate|].
    apply slices_loop_in_range; [exact Hok|].
    rewrite Hperm. apply seqZ_in_range.
  - exists (seqZ 0 (n_slices_of self shard)).
    split; [reflexivity|]. split; [reflexivity|].
    simpl. apply slices_loop_in_range; [exact Hok|apply seqZ_in_range].
Qed.
End WholeSlices.

(** X1. With at least one row per batch and a sequence length that is not
    negative, [_iter_shard] never raises and yields exactly
    [floor(len(shard) / toks_per_batch)] batches, shuffled or not. *)
Theorem iter_shard_count {torch : TorchRng} (self : TokenDataset.t)
    (shard : Tensor1) (shuffle : bool) (g : rng) :
  sizes_ok self ->
  raised (TokenDataset._iter_shard self shard shuffle g).1 = None /\
  Z.of_nat (length (yielded (TokenDataset._iter_shard self shard shuffle g).1))
  = Z.of_nat (length shard) / TokenDataset.toks_per_batch self.
Proof.
  intros Hok.
  destruct (iter_shard_batches self Hok shard shuffle g)
    as (idxs & Hperm & _ & ->).
  simpl. split; [reflexivity|].
  rewrite length_map, Hperm, length_seqZ.
  pose proof (n_slices_nonneg self shard (sizes_ok_tpb self Hok)).
  unfold n_slices_of in *. lia.
Qed.

Lemma iter_shard_count_witness :
  raised (TokenDataset._iter_shard (torch := counting_rng) demo_ds
            [1; 2; 3; 4; 5; 6; 7; 8; 9; 10; 11; 12; 13] true 3%nat).1 = None /\
  Z.of_nat (length (yielded (TokenDataset._iter_shard (torch := counting_rng)
            demo_ds [1; 2; 3; 4; 5; 6; 7; 8; 9; 10; 11; 12; 13] true 3%nat).1))
  = Z.of_nat (length [1; 2; 3; 4; 5; 6; 7; 8; 9; 10; 11; 12; 13])
    / TokenDataset.toks_per_batch demo_ds.
Proof.
  apply (@iter_shard_count counting_rng demo_ds).
  vm_compute. repeat split; discriminate.
Defined.

(** ** What the evaluation computes, and a stream that fails *)

Lemma eval_loop_spec {net : Net} (model : Params) (batches : list Batch)
    (total_loss : Q) (n_batches : Z) (total' : Q) (n' : Z) :
  eval_loop model batches total_loss n_batches = Ok (total', n') ->
  exists losses,
    Forall2 (fun b l => get_loss model false b.1 b.2 = Ok l) batches losses /\
    (total' == total_loss + Qsum (map item losses))%Q /\
    n' = n_batches + Z.of_nat (length losses).
Proof.
  revert total_loss n_batches.
  induction batches as [|[tokens labels] rest IH];
    intros total_loss n_batches; simpl.
  - intros [= <- <-]. exists []. simpl.
    split; [constructor|]. split; [ring|lia].
  - destruct (get_loss model false tokens labels) as [l|e] eqn:Hl;
      [|discriminate].
    simpl. intros Hrec.
    destruct (IH _ _ Hrec) as (losses & Hall & Htotal & Hn).
    exists (l :: losses). simpl.
    split; [constructor; [exact Hl|exact Hall]|].
    split; [rewrite Htotal; ring|lia].
Qed.

(** X21. An evaluation that completes has computed, in inference mode and
    on the parameters it was given, the loss of every batch of one pass of
    the evaluation streamer; its result is the arithmetic mean of these
    losses, each batch counting the same, and it is logged once, under
    [val_loss], at the step of the evaluation. *)
Theorem evaluation_block_mean {net : Net} {torch : TorchRng} (fs : FileSystem)
    (val_dataset_dir : string) (batch_size seq_len step : Z)
    (st : TrainState) (g : rng) (val_ds : TokenDataset.t)
    (out : list string) (val_loss : Q) :
  TokenDataset.__init__ fs val_dataset_dir batch_size seq_len
  = Ok (val_ds, out) ->
  (evaluation_block fs val_dataset_dir batch_size seq_len step st g).2
  = Ok val_loss ->
  exists losses,
    Forall2 (fun b l => get_loss (params st) false b.1 b.2 = Ok l)
            (yielded (EvalTokenDataset.__iter__ fs val_ds (Some 1) g).1)
            losses /\
    raised (EvalTokenDataset.__iter__ fs val_ds (Some 1) g).1 = None /\
    (0 < length losses)%nat /\
    (val_loss == Qsum (map item losses)
                 / inject_Z (Z.of_nat (length losses)))%Q /\
    logged (evaluation_block fs val_dataset_dir batch_size seq_len step st g).1
    = logged st ++ [(step, "val_loss", val_loss)].
Proof.
  intros Hinit. unfold evaluation_block. rewrite Hinit.
  destruct (eval_loop _ _ _ _) as [[total n]|e] eqn:Hloop; [|discriminate].
  simpl in Hloop. apply eval_loop_spec in Hloop as (losses & Hall & Ht & Hn).
  destruct (raised _); [discriminate|].
  unfold float_div_int.
  destruct (Z.eqb_spec n 0) as [Hz|Hz]; [discriminate|].
  simpl. intros [= <-].
  exists losses. split; [exact Hall|]. split; [reflexivity|].
  split; [lia|]. split; [|reflexivity].
  rewrite Ht, Hn. simpl. apply Qdiv_comp; [ring|reflexivity].
Qed.

Lemma evaluation_block_mean_witness :
  exists val_loss losses,
    (evaluation_block (net := demo_net) (torch := counting_rng)
       demo_fs "val" 2 2 100 (demo_state true) 0%nat).2 = Ok val_loss /\
    Forall2 (fun b l => get_loss (params (demo_state true)) false b.1 b.2
                        = Ok l)
            (yielded (EvalTokenDataset.__iter__ (torch := counting_rng)
                        demo_fs demo_ds (Some 1) 0%nat).1)
            losses /\
    raised (EvalTokenDataset.__iter__ (torch := counting_rng)
              demo_fs demo_ds (Some 1) 0%nat).1 = None /\
    (0 < length losses)%nat /\
    (val_loss == Qsum (map item losses)
                 / inject_Z (Z.of_nat (length losses)))%Q /\
    logged (evaluation_block (net := demo_net) (torch := counting_rng)
              demo_fs "val" 2 2 100 (demo_state true) 0%nat).1
    = logged (demo_state true) ++ [(100, "val_loss", val_loss)].
Proof.
  eexists. 
  assert (Hok : (evaluation_block (net := demo_net) (torch := counting_rng)
            demo_fs "val" 2 2 100 (demo_state true) 0%nat).2
          = Ok (1024 # 1024)) by (vm_compute; reflexivity).
  destruct (@evaluation_block_mean demo_net counting_rng demo_fs "val" 2 2 100
              (demo_state true) 0%nat demo_ds ["Found 2 shards of data"]
              (1024 # 1024) ltac:(vm_compute; reflexivity) Hok)
    as (losses & H).
  exists losses. split; [exact Hok|exact H].
Defined.

(** X22. A stream that fails. When the stream behind the loader was ended
    by an exception before the [gradient_accumulation] batches of a round
    are there, the accumulation fails with that exception, after the
    batches that were still there have been used. *)
Theorem accumulate_on_failed_stream {net : Net} (g : Z) (st : TrainState)
    (dloader : trace Batch) (loss0 : option Loss) (e : exn) :
  raised dloader = Some e ->
  Z.of_nat (length (yielded dloader)) < g ->
  Forall (fun b => exists l,
            get_loss (params st) (training st) b.1 b.2 = Ok l)
         (yielded dloader) ->
  accumulate g st dloader loss0 = Raise e.
Proof.
  intros Hended Hshort Hall. unfold accumulate.
  assert (Hn : (length (yielded dloader) < Z.to_nat g)%nat) by lia.
  clear Hshort. revert Hn. generalize (Z.to_nat g). intros n.
  destruct dloader as [batches ended]. simpl in *. subst ended.
  revert n st loss0 Hall.
  induction batches as [|[tokens labels] rest IH]; intros n st loss0 Hall Hn.
  - destruct n; [simpl in Hn; lia|]. reflexivity.
  - destruct n; [simpl in Hn; lia|]. simpl. unfold next. simpl.
    apply Forall_cons in Hall as [[l Hl] Hall]. simpl in Hl.
    rewrite Hl. simpl. apply IH; [exact Hall|simpl in Hn; lia].
Qed.

Lemma accumulate_on_failed_stream_witness :
  accumulate (net := demo_net) 2 (demo_state true) failing_dloader None
  = Raise (OSError "No such file or directory").
Proof.
  apply (@accumulate_on_failed_stream demo_net 2 (demo_state true)
           failing_dloader None).
  - vm_compute. reflexivity.
  - vm_compute. reflexivity.
  - repeat constructor; eexists; vm_compute; reflexivity.
Defined.

(** X23. An evaluation that fails leaves the model in inference mode:
    [model.train()] is the last statement of the block and nothing brings
    the model back when the loop over the batches, the stream or the mean
    raises. The parameters and the log are as they were. *)
Theorem evaluation_block_failure_mode {net : Net} {torch : TorchRng}
    (fs : FileSystem) (val_dataset_dir : string)
    (batch_size seq_len step : Z) (st : TrainState) (g : rng) (e : exn) :
  (evaluation_block fs val_dataset_dir batch_size seq_len step st g).2
  = Raise e ->
  evaluation_block fs val_dataset_dir batch_size seq_len step st g
  = (set_mode false st, Raise e).
Proof.
  unfold evaluation_block. simpl.
  destruct (eval_loop _ _ _ _) as [[total n]|e'];
    [|simpl; intros [= ->]; reflexivity].
  destruct (raised _) as [e'|]; [simpl; intros [= ->]; reflexivity|].
  destruct (float_div_int total n) as [v|e'];
    [discriminate|simpl; intros [= ->]; reflexivity].
Qed.

Lemma evaluation_block_failure_mode_witness :
  evaluation_block (net := demo_net) (torch := counting_rng)
    broken_fs "val" 2 2 100 (demo_state true) 0%nat
  = (set_mode false (demo_state true),
     Raise (OSError "No such file or directory")).
Proof.
  apply (@evaluation_block_failure_mode demo_net counting_rng broken_fs "val"
           2 2 100 (demo_state true) 0%nat).
  vm_compute. reflexivity.
Defined.

(** ** Shapes, order and coverage *)

Lemma rows_row_length {A} (r c : nat) (l : list A) :
  length l = (r * c)%nat -> Forall (fun row => length row = c) (rows r c l).
Proof.
  revert l. induction r as [|r IH]; intros l Hlen; simpl; constructor.
  - rewrite length_take. nia.
  - apply IH. rewrite length_drop. nia.
Qed.

Lemma rows_concat {A} (r c : nat) (l : list A) :
  length l = (r * c)%nat -> concat (rows r c l) = l.
Proof.
  revert l. induction r as [|r IH]; intros l Hlen; simpl.
  - destruct l; [reflexivity|discriminate].
  - rewrite IH by (rewrite length_drop; nia). apply take_drop.
Qed.

Lemma batch_at_shape (self : TokenDataset.t) (shard : Tensor1) (k : Z) :
  sizes_ok self -> 0 <= k < n_slices_of self shard ->
  batch_shape (TokenDataset.batch_size self) (TokenDataset.seq_len self)
    (batch_at self shard k).
Proof.
  intros Hok Hk. pose proof Hok as (Hbs & Hsl & Htpb).
  pose proof (slice_in_range self shard k (sizes_ok_tpb self Hok) Hk) as Hlen.
  unfold batch_shape, batch_at. simpl.
  rewrite !length_map, rows_length.
  split; [reflexivity|]. split; [reflexivity|].
  set (slice := py_slice shard _ _) in *.
  assert (Hrows : Forall (fun row => length row
                            = Z.to_nat (TokenDataset.seq_len self + 1))
                         (rows (Z.to_nat (TokenDataset.batch_size self))
                               (Z.to_nat (TokenDataset.seq_len self + 1)) slice))
    by (apply rows_row_length; nia).
  split; apply Forall_forall; intros row Hrow;
    apply list_elem_of_In, in_map_iff in Hrow as [row' [<- Hrow']];
    apply list_elem_of_In in Hrow';
    rewrite Forall_forall in Hrows; specialize (Hrows row' Hrow').
  - rewrite py_slice_to_minus_one, length_take. lia.
  - rewrite py_slice_from_one, length_drop. lia.
Qed.

(** X2. On sizes that make sense, every batch that [_iter_shard] yields has
    [batch_size] rows of [seq_len] tokens and as many rows of [seq_len]
    labels. *)
Theorem iter_shard_batch_shape {torch : TorchRng} (self : TokenDataset.t)
    (shard : Tensor1) (shuffle : bool) (g : rng) :
  sizes_ok self ->
  Forall (batch_shape (TokenDataset.batch_size self) (TokenDataset.seq_len self))
         (yielded (TokenDataset._iter_shard self shard shuffle g).1).
Proof.
  intros Hok.
  destruct (iter_shard_batches self Hok shard shuffle g)
    as (idxs & Hperm & _ & ->).
  simpl. apply Forall_forall. intros b Hb.
  apply list_elem_of_In, in_map_iff in Hb as [k [<- Hk]].
  apply batch_at_shape; [exact Hok|].
  apply list_elem_of_In in Hk. rewrite Hperm in Hk.
  apply elem_of_seqZ in Hk. lia.
Qed.

Lemma iter_shard_batch_shape_witness :
  Forall (batch_shape 2 2)
    (yielded (TokenDataset._iter_shard (torch := counting_rng) demo_ds
                [1; 2; 3; 4; 5; 6; 7; 8; 9; 10; 11; 12; 13] true 3%nat).1).
Proof.
  apply (@iter_shard_batch_shape counting_rng demo_ds).
  vm_compute. repeat split; discriminate.
Defined.

(** X3. Shuffling only reorders: the batches of a shuffled pass over a
    shard are a permutation of the batches of the pass in order. *)
Theorem iter_shard_shuffle_permutes {torch : TorchRng} (self : TokenDataset.t)
    (shard : Tensor1) (g g' : rng) :
  sizes_ok self ->
  yielded (TokenDataset._iter_shard self shard true g).1
  ≡ₚ yielded (TokenDataset._iter_shard self shard false g').1.
Proof.
  intros Hok.
  destruct (iter_shard_batches self Hok shard true g)
    as (idxs & Hperm & _ & ->).
  destruct (iter_shard_batches self Hok shard false g')
    as (idxs' & _ & Hidxs' & ->).
  simpl. rewrite (Hidxs' eq_refl). now apply Permutation_map.
Qed.

Lemma iter_shard_shuffle_permutes_witness :
  yielded (TokenDataset._iter_shard (torch := counting_rng) demo_ds
             [1; 2; 3; 4; 5; 6; 7; 8; 9; 10; 11; 12; 13] true 3%nat).1
  ≡ₚ yielded (TokenDataset._iter_shard (torch := counting_rng) demo_ds
               [1; 2; 3; 4; 5; 6; 7; 8; 9; 10; 11; 12; 13] false 0%nat).1.
Proof.
  apply (@iter_shard_shuffle_permutes counting_rng demo_ds).
  vm_compute. repeat split; discriminate.
Defined.

Example shuffled_pass_is_reordered :
  yielded (TokenDataset._iter_shard (torch := counting_rng) demo_ds
             [1; 2; 3; 4; 5; 6; 7; 8; 9; 10; 11; 12; 13] true 3%nat).1
  = [ ([[7; 8]; [10; 11]], [[8; 9]; [11; 12]]);
      ([[1; 2]; [4; 5]], [[2; 3]; [5; 6]]) ].
Proof. vm_compute. reflexivity. Qed.

(** A row is its tokens followed by its last label. *)
Lemma row_rebuilt (row : list Z) :
  (2 <= length row)%nat ->
  py_slice_to row (-1)
  ++ drop (length (py_slice_from row 1) - 1) (py_slice_from row 1) = row.
Proof.
  intros Hlen.
  rewrite py_slice_to_minus_one, py_slice_from_one, length_drop, drop_drop.
  replace (1 + (length row - 1 - 1))%nat with (length row - 1)%nat by lia.
  apply take_drop.
Qed.

Lemma unbatch_rows (batch : list (list Z)) :
  Forall (fun row => (2 <= length row)%nat) batch ->
  unbatch (map (fun row => py_slice_to row (-1)) batch,
           map (fun row => py_slice_from row 1) batch)
  = concat batch.
Proof.
  unfold unbatch. simpl.
  induction 1 as [|row batch Hrow _ IH]; [reflexivity|].
  simpl. rewrite IH. f_equal. now apply row_rebuilt.
Qed.

Lemma unbatch_batch_at (self : TokenDataset.t) (shard : Tensor1) (k : Z) :
  sizes_ok self -> 1 <= TokenDataset.seq_len self ->
  0 <= k < n_slices_of self shard ->
  unbatch (batch_at self shard k)
  = take (Z.to_nat (TokenDataset.toks_per_batch self))
         (drop (Z.to_nat (k * TokenDataset.toks_per_batch self)) shard).
Proof.
  intros Hok Hsl Hk. pose proof Hok as (Hbs & _ & Htpb).
  pose proof (sizes_ok_tpb self Hok) as Hpos.
  pose proof (slice_in_range self shard k Hpos Hk) as Hlen.
  unfold batch_at.
  set (slice := py_slice shard _ _) in *.
  rewrite unbatch_rows.
  - rewrite rows_concat by nia. subst slice.
    unfold n_slices_of in Hk.
    pose proof (Z.mul_div_le (Z.of_nat (length shard))
                  (TokenDataset.toks_per_batch self) Hpos).
    destruct (py_slice_in_range shard
                (k * TokenDataset.toks_per_batch self)
                ((k + 1) * TokenDataset.toks_per_batch self)) as [-> _];
      try nia.
    f_equal. lia.
  - eapply Forall_impl; [apply rows_row_length; nia|].
    intros row Hrow. simpl in Hrow. lia.
Qed.

Lemma concat_consecutive {A} (l : list A) (c n : nat) :
  (n * c <= length l)%nat ->
  concat (map (fun i : nat => take c (drop (i * c) l)) (seq 0 n))
  = take (n * c) l.
Proof.
  intros Hlen. induction n as [|n IH]; [reflexivity|].
  rewrite seq_S, map_app, concat_app, IH by nia. simpl.
  rewrite app_nil_r.
  replace (c + n * c)%nat with (n * c + c)%nat by lia.
  rewrite <- take_take_drop. reflexivity.
Qed.

Lemma seqZ_of_nat (n : Z) : seqZ 0 n = map Z.of_nat (seq 0 (Z.to_nat n)).
Proof.
  unfold seqZ. generalize (seq 0 (Z.to_nat n)). intros l.
  induction l as [|i l IH]; [reflexivity|].
  simpl. rewrite Z.add_0_r. f_equal. exact IH.
Qed.

(** X4. The pass in order covers the shard from its start, slice after
    slice: putting the rows of the batches back together (tokens of a row,
    then its last label) gives the first [n_slices * toks_per_batch] tokens
    of the shard; the tokens after them are left out. *)
Theorem iter_shard_in_order_covers_prefix {torch : TorchRng}
    (self : TokenDataset.t) (shard : Tensor1) (g : rng) :
  sizes_ok self -> 1 <= TokenDataset.seq_len self ->
  concat (map unbatch (yielded (TokenDataset._iter_shard self shard false g).1))
  = take (Z.to_nat (n_slices_of self shard * TokenDataset.toks_per_batch self))
         shard.
Proof.
  intros Hok Hsl.
  destruct (iter_shard_batches self Hok shard false g)
    as (idxs & _ & Hidxs & ->).
  rewrite (Hidxs eq_refl). simpl.
  pose proof (sizes_ok_tpb self Hok) as Hpos.
  pose proof (n_slices_nonneg self shard Hpos) as Hn.
  rewrite map_map.
  rewrite (map_ext_in _ (fun k => take (Z.to_nat (TokenDataset.toks_per_batch self))
             (drop (Z.to_nat (k * TokenDataset.toks_per_batch self)) shard))).
  - rewrite seqZ_of_nat, map_map.
    rewrite (map_ext _ (fun i : nat =>
               take (Z.to_nat (TokenDataset.toks_per_batch self))
                    (drop (i * Z.to_nat (TokenDataset.toks_per_batch self))
                          shard))).
    + rewrite concat_consecutive.
      * f_equal. lia.
      * unfold n_slices_of in *.
        pose proof (Z.mul_div_le (Z.of_nat (length shard))
                      (TokenDataset.toks_per_batch self) Hpos).
        nia.
    + intros i. do 2 f_equal. lia.
  - intros k Hk. apply unbatch_batch_at; try assumption.
    apply list_elem_of_In, elem_of_seqZ in Hk. lia.
Qed.

Lemma iter_shard_in_order_covers_prefix_witness :
  concat (map unbatch
            (yielded (TokenDataset._iter_shard (torch := counting_rng) demo_ds
                        [1; 2; 3; 4; 5; 6; 7; 8; 9; 10; 11; 12; 13] false
                        0%nat).1))
  = take (Z.to_nat (n_slices_of demo_ds
                      [1; 2; 3; 4; 5; 6; 7; 8; 9; 10; 11; 12; 13]
                    * TokenDataset.toks_per_batch demo_ds))
         [1; 2; 3; 4; 5; 6; 7; 8; 9; 10; 11; 12; 13].
Proof.
  apply (@iter_shard_in_order_covers_prefix counting_rng demo_ds).
  - vm_compute. repeat split; discriminate.
  - vm_compute. discriminate.
Defined.

(** ** The evaluation streamer, shard after shard *)

Lemma py_index_middle {A} (done todo : list A) (x : A) :
  py_index (done ++ x :: todo) (Z.of_nat (length done)) = Ok x.
Proof.
  unfold py_index. rewrite length_app. simpl length.
  destruct (Z.ltb_spec (Z.of_nat (length done)) 0); [lia|].
  destruct (Z.ltb_spec (Z.of_nat (length done)) 0); [lia|].
  destruct (Z.leb_spec (Z.of_nat (length done + S (length todo)))
                       (Z.of_nat (length done))); [lia|].
  simpl. rewrite Nat2Z.id, list_lookup_middle by reflexivity. reflexivity.
Qed.

Section EvalInOrder.
Context {torch : TorchRng}.
Variable fs : FileSystem.
Variable self : TokenDataset.t.
Hypothesis Hok : sizes_ok self.

Lemma eval_shards_loop_trace (done todo : list string) (g : rng) :
  TokenDataset.shards self = done ++ todo ->
  (EvalTokenDataset.shards_loop fs self
     (seqZ (Z.of_nat (length done)) (Z.of_nat (length todo))) g).1
  = eval_trace fs self todo.
Proof.
  revert done g. induction todo as [|path rest IH]; intros done g Hshards.
  - reflexivity.
  - rewrite seqZ_cons by (simpl length; lia). simpl.
    rewrite Hshards, py_index_middle.
    destruct (memmap fs path 0) as [shard|e]; [|reflexivity].
    destruct (iter_shard_batches self Hok shard false g)
      as (idxs & _ & Hidxs & Ht).
    rewrite (Hidxs eq_refl) in Ht.
    destruct (TokenDataset._iter_shard self shard false g) as [t1 g1].
    simpl in Ht. subst t1. simpl.
    specialize (IH (done ++ [path]) g1).
    rewrite length_app in IH. simpl length in IH.
    replace (Z.succ (Z.of_nat (length done)))
      with (Z.of_nat (length done + 1)) by lia.
    replace (Z.pred (Z.of_nat (S (length rest))))
      with (Z.of_nat (length rest)) by lia.
    destruct (EvalTokenDataset.shards_loop fs self _ g1) as [t2 g2].
    simpl in *. rewrite <- IH; [reflexivity|].
    rewrite Hshards, <- app_assoc. reflexivity.
Qed.

Lemma eval_iter_trace (worker_info : option Z) (g : rng) :
  worker_info = None \/ worker_info = Some 1 ->
  (EvalTokenDataset.__iter__ fs self worker_info g).1
  = eval_trace fs self (TokenDataset.shards self).
Proof.
  intros Hwi. unfold EvalTokenDataset.__iter__.
  assert (Hloop : (EvalTokenDataset.shards_loop fs self
            (seqZ 0 (Z.of_nat (length (TokenDataset.shards self)))) g).1
          = eval_trace fs self (TokenDataset.shards self))
    by (apply (eval_shards_loop_trace [] (TokenDataset.shards self) g);
        reflexivity).
  destruct Hwi as [->| ->]; exact Hloop.
Qed.

Lemma eval_trace_all_open (paths : list string) :
  Forall (fun path => exists shard, memmap fs path 0 = Ok shard) paths ->
  eval_trace fs self paths
  = Trace (concat (map (shard_batches fs self) paths)) None.
Proof.
  induction 1 as [|path rest [shard Hopen] _ IH]; [reflexivity|].
  simpl. unfold shard_batches at 1. rewrite Hopen, IH. reflexivity.
Qed.

Lemma eval_trace_first_failure (pre post : list string) (bad : string)
    (e : exn) :
  Forall (fun path => exists shard, memmap fs path 0 = Ok shard) pre ->
  memmap fs bad 0 = Raise e ->
  eval_trace fs self (pre ++ bad :: post)
  = Trace (concat (map (shard_batches fs self) pre)) (Some e).
Proof.
  intros Hpre Hbad. induction Hpre as [|path rest [shard Hopen] _ IH].
  - simpl. rewrite Hbad. reflexivity.
  - simpl. unfold shard_batches at 1. rewrite Hopen, IH. reflexivity.
Qed.
End EvalInOrder.

(** X5. When every shard opens, one pass of the evaluation streamer (in the
    main process or in a single worker) ends normally, and what it yields
    is, shard after shard in the order of the shard list, the batches of
    each shard read from its start in order. *)
Theorem eval_iter_yields_shards_in_order {torch : TorchRng} (fs : FileSystem)
    (self : TokenDataset.t) (worker_info : option Z) (g : rng) :
  sizes_ok self ->
  worker_info = None \/ worker_info = Some 1 ->
  Forall (fun path => exists shard, memmap fs path 0 = Ok shard)
         (TokenDataset.shards self) ->
  (EvalTokenDataset.__iter__ fs self worker_info g).1
  = Trace (concat (map (shard_batches fs self) (TokenDataset.shards self)))
          None.
Proof.
  intros Hok Hwi Hopen.
  rewrite eval_iter_trace by assumption.
  now apply eval_trace_all_open.
Qed.

Lemma eval_iter_yields_shards_in_order_witness :
  (EvalTokenDataset.__iter__ (torch := counting_rng) demo_fs demo_ds
     (Some 1) 0%nat).1
  = Trace (concat (map (shard_batches demo_fs demo_ds)
                       (TokenDataset.shards demo_ds))) None.
Proof.
  apply (@eval_iter_yields_shards_in_order counting_rng demo_fs demo_ds).
  - vm_compute. repeat split; discriminate.
  - right. reflexivity.
  - repeat constructor; eexists; vm_compute; reflexivity.
Defined.

(** X6. The first shard that does not open ends the evaluation pass with
    the exception of the opening, after the batches of the shards before it
    have been yielded; the shards after it play no part. *)
Theorem eval_iter_stops_at_first_bad_shard {torch : TorchRng}
    (fs : FileSystem) (self : TokenDataset.t) (worker_info : option Z)
    (g : rng) (pre post : list string) (bad : string) (e : exn) :
  sizes_ok self ->
  worker_info = None \/ worker_info = Some 1 ->
  TokenDataset.shards self = pre ++ bad :: post ->
  Forall (fun path => exists shard, memmap fs path 0 = Ok shard) pre ->
  memmap fs bad 0 = Raise e ->
  (EvalTokenDataset.__iter__ fs self worker_info g).1
  = Trace (concat (map (shard_batches fs self) pre)) (Some e).
Proof.
  intros Hok Hwi Hshards Hpre Hbad.
  rewrite eval_iter_trace by assumption.
  rewrite Hshards. now apply eval_trace_first_failure.
Qed.

Lemma eval_iter_stops_at_first_bad_shard_witness :
  (EvalTokenDataset.__iter__ (torch := counting_rng) broken_fs broken_ds
     None 0%nat).1
  = Trace (concat (map (shard_batches broken_fs broken_ds) ["val/a.bin"]))
          (Some (OSError "No such file or directory")).
Proof.
  apply (@eval_iter_stops_at_first_bad_shard counting_rng broken_fs broken_ds
           None 0%nat ["val/a.bin"] ["val/d.bin"] "val/c.bin").
  - vm_compute. repeat split; discriminate.
  - left. reflexivity.
  - reflexivity.
  - repeat constructor; eexists; vm_compute; reflexivity.
  - vm_compute. reflexivity.
Defined.

(** ** The training streamer *)

(** X7. Over a dataset without shards the training streamer yields nothing
    and raises nothing, however many rounds of its [while True] it makes:
    whoever asks it for a batch waits for ever. *)
Theorem train_iter_without_shards_spins {torch : TorchRng} (fs : FileSystem)
    (self : TokenDataset.t) (cycles : nat) (g : rng) :
  TokenDataset.shards self = [] ->
  (TokenDataset.__iter__ fs self cycles g).1 = Trace [] None.
Proof.
  intros Hnone. revert g. induction cycles as [|c IH]; intros g; simpl.
  - reflexivity.
  - rewrite Hnone. change (Z.of_nat (length (@nil string))) with 0.
    pose proof (randperm_perm 0 g) as Hperm.
    destruct (randperm 0 g) as [idxs g1]. simpl in Hperm.
    apply Permutation_nil_r in Hperm. subst idxs. simpl.
    specialize (IH g1).
    destruct (TokenDataset.__iter__ fs self c g1) as [t2 g2].
    simpl in *. now subst t2.
Qed.

Lemma train_iter_without_shards_spins_witness :
  (TokenDataset.__iter__ (torch := counting_rng) empty_fs no_shards_ds 7 0%nat).1
  = Trace [] None.
Proof.
  apply (@train_iter_without_shards_spins counting_rng empty_fs no_shards_ds).
  reflexivity.
Defined.

Section TrainOrigin.
Context {torch : TorchRng}.
Variable fs : FileSystem.
Variable self : TokenDataset.t.
Hypothesis Hok : sizes_ok self.

Lemma train_shards_loop_origin (shard_indices : list Z) (g : rng) (b : Batch) :
  b ∈ yielded (TokenDataset.shards_loop fs self shard_indices g).1 ->
  whole_slice_at_offset fs self b.
Proof.
  pose proof (sizes_ok_tpb self Hok) as Hpos.
  revert g. induction shard_indices as [|i rest IH]; intros g; simpl.
  - intros Hin. inversion Hin.
  - destruct (Z.leb_spec (TokenDataset.toks_per_batch self) 0); [lia|].
    pose proof (randint_range 0 (TokenDataset.toks_per_batch self) g Hpos)
      as Hoff.
    destruct (randint 0 _ g) as [offset g1]. simpl in Hoff.
    destruct (py_index _ i) as [path|e] eqn:Hidx;
      [|simpl; intros Hin; inversion Hin].
    destruct (memmap fs path (offset * 2)) as [shard|e] eqn:Hmm;
      [|simpl; intros Hin; inversion Hin].
    destruct (iter_shard_batches self Hok shard true g1)
      as (idxs & Hperm & _ & Ht).
    destruct (TokenDataset._iter_shard self shard true g1) as [t1 g2].
    simpl in Ht. subst t1. simpl.
    specialize (IH g2).
    destruct (TokenDataset.shards_loop fs self rest g2) as [t2 g3].
    simpl in *. intros Hin.
    apply elem_of_app in Hin as [Hin|Hin]; [|now apply IH].
    apply list_elem_of_In, in_map_iff in Hin as [k [<- Hk]].
    apply list_elem_of_In in Hk. rewrite Hperm in Hk.
    apply elem_of_seqZ in Hk.
    exists path, offset, shard, k.
    repeat split; try lia; try assumption.
    eapply py_index_elem, Hidx.
Qed.

Lemma train_iter_origin (cycles : nat) (g : rng) (b : Batch) :
  b ∈ yielded (TokenDataset.__iter__ fs self cycles g).1 ->
  whole_slice_at_offset fs self b.
Proof.
  revert g. induction cycles as [|c IH]; intros g; simpl.
  - intros Hin. inversion Hin.
  - destruct (randperm _ g) as [idxs g1].
    pose proof (train_shards_loop_origin idxs g1) as Hloop.
    destruct (TokenDataset.shards_loop fs self idxs g1) as [t1 g2].
    destruct (raised t1) eqn:Hr; simpl in *; [now apply Hloop|].
    specialize (IH g2).
    destruct (TokenDataset.__iter__ fs self c g2) as [t2 g3].
    simpl in *. intros Hin.
    apply elem_of_tseq in Hin as [Hin|Hin]; auto.
Qed.
End TrainOrigin.

(** X8. Every batch of the training streamer is a whole slice of a shard
    of the dataset: the shard was opened at a byte offset [2 * offset] with
    [0 <= offset < toks_per_batch], and the batch is slice [slice_idx] of
    what was opened, with [0 <= slice_idx < n_slices]. No batch straddles
    the end of a shard or mixes two shards. *)
Theorem train_iter_batches_are_whole_slices {torch : TorchRng}
    (fs : FileSystem) (self : TokenDataset.t) (cycles : nat) (g : rng)
    (b : Batch) :
  sizes_ok self ->
  b ∈ yielded (TokenDataset.__iter__ fs self cycles g).1 ->
  whole_slice_at_offset fs self b.
Proof. intros Hok. now apply train_iter_origin. Qed.

Lemma train_iter_batches_are_whole_slices_witness :
  whole_slice_at_offset demo_fs demo_ds
    ([[24; 25]; [27; 28]], [[25; 26]; [28; 29]]).
Proof.
  apply (@train_iter_batches_are_whole_slices counting_rng demo_fs demo_ds
           1%nat 0%nat).
  - vm_compute. repeat split; discriminate.
  - vm_compute. right. left.
Defined.

(** ** The shard list *)

Lemma string_append_assoc (s1 s2 s3 : string) :
  String.append (String.append s1 s2) s3
  = String.append s1 (String.append s2 s3).
Proof. induction s1 as [|c s1 IH]; simpl; [|rewrite IH]; reflexivity. Qed.

Lemma string_rev_acc_app (s acc : string) :
  string_rev_acc s acc = String.append (string_rev_acc s "") acc.
Proof.
  revert acc. induction s as [|c s IH]; intros acc; simpl; [reflexivity|].
  rewrite (IH (String c acc)), (IH (String c "")).
  rewrite string_append_assoc. reflexivity.
Qed.

Lemma string_append_nil_r (s : string) : String.append s "" = s.
Proof. induction s as [|c s IH]; simpl; [|rewrite IH]; reflexivity. Qed.

Lemma string_rev_append (s1 s2 : string) :
  string_rev_acc (String.append s1 s2) ""
  = String.append (string_rev_acc s2 "") (string_rev_acc s1 "").
Proof.
  induction s1 as [|c s1 IH]; simpl.
  - now rewrite string_append_nil_r.
  - rewrite (string_rev_acc_app (String.append s1 s2) (String c "")), IH,
      (string_rev_acc_app s1 (String c "")).
    now rewrite string_append_assoc.
Qed.

Lemma string_rev_involutive (s : string) :
  string_rev_acc (string_rev_acc s "") "" = s.
Proof.
  induction s as [|c s IH]; simpl; [reflexivity|].
  rewrite (string_rev_acc_app s (String c "")), string_rev_append, IH.
  reflexivity.
Qed.

Lemma string_prefix_iff (p s : string) :
  String.prefix p s = true <-> exists r, s = String.append p r.
Proof.
  revert s. induction p as [|a p IH]; intros [|b s]; simpl.
  - split; eauto.
  - split; eauto.
  - split; [discriminate|]. intros [r Hr]. discriminate.
  - destruct (ascii_dec a b) as [->|Hne].
    + rewrite IH. split; intros [r Hr]; exists r; congruence.
    + split; [discriminate|]. intros [r Hr]. congruence.
Qed.

(** [endswith s suffix] holds exactly when [s] is something followed by
    [suffix]. *)
Lemma endswith_iff (s suffix : string) :
  endswith s suffix = true <-> exists stem, s = String.append stem suffix.
Proof.
  unfold endswith. rewrite string_prefix_iff. split.
  - intros [r Hr]. exists (string_rev_acc r "").
    rewrite <- (string_rev_involutive s), Hr, string_rev_append.
    now rewrite string_rev_involutive.
  - intros [stem ->]. exists (string_rev_acc stem "").
    apply string_rev_append.
Qed.

(** X9. The dataset that [__init__] builds holds, in ascending order of
    path, exactly the entries of the directory whose name ends in [.bin];
    nothing else in the directory is ever taken for a shard. It reports
    their number, and [toks_per_batch] is [batch_size * (seq_len + 1)]. *)
Theorem init_shards_are_the_sorted_bin_files (fs : FileSystem)
    (dataset_dir : string) (batch_size seq_len : Z) (self : TokenDataset.t)
    (out : list string) :
  TokenDataset.__init__ fs dataset_dir batch_size seq_len = Ok (self, out) ->
  Sorted str_le (TokenDataset.shards self) /\
  (forall path,
     path ∈ TokenDataset.shards self <->
     exists stem,
       String.append stem ".bin" ∈ iterdir fs dataset_dir /\
       path = String.append dataset_dir
                (String.append "/" (String.append stem ".bin"))) /\
  out = [String.append "Found "
           (String.append (str_of_nat (length (TokenDataset.shards self)))
                          " shards of data")] /\
  TokenDataset.toks_per_batch self = batch_size * (seq_len + 1).
Proof.
  unfold TokenDataset.__init__. intros [= <- <-]. simpl.
  split; [apply Sorted_merge_sort; apply _|].
  split; [|split; reflexivity].
  intros path. unfold sorted. rewrite merge_sort_Permutation.
  unfold glob_bin. rewrite list_elem_of_In, in_map_iff. split.
  - intros [name [<- Hname]].
    apply list_elem_of_In, list_elem_of_filter in Hname as [Hbin Hname].
    apply endswith_iff in Hbin as [stem ->]. eauto.
  - intros [stem [Hin ->]]. eexists. split; [reflexivity|].
    apply list_elem_of_In, list_elem_of_filter. split; [|exact Hin].
    apply endswith_iff. eauto.
Qed.

Lemma init_shards_are_the_sorted_bin_files_witness :
  Sorted str_le (TokenDataset.shards demo_ds) /\
  (forall path,
     path ∈ TokenDataset.shards demo_ds <->
     exists stem,
       String.append stem ".bin" ∈ iterdir demo_fs "val" /\
       path = String.append "val"
                (String.append "/" (String.append stem ".bin"))) /\
  ["Found 2 shards of data"]
  = [String.append "Found "
       (String.append (str_of_nat (length (TokenDataset.shards demo_ds)))
                      " shards of data")] /\
  TokenDataset.toks_per_batch demo_ds = 2 * (2 + 1).
Proof.
  apply (init_shards_are_the_sorted_bin_files demo_fs "val" 2 2 demo_ds
           ["Found 2 shards of data"]).
  vm_compute. reflexivity.
Defined.

(** ** More on the learning rate schedule *)

(** X10. The only failure of [get_lr] is the division by [t1 = 0] of the
    warmup branch, which it takes, without warmup, for negative steps
    only. *)
Theorem get_lr_raises_iff {math : Math} (s : LRSchedule.t) (step : Z) (e : exn) :
  LRSchedule.get_lr s step = Raise e <->
  LRSchedule.t1 s = 0 /\ step < 0 /\ e = ZeroDivisionError.
Proof.
  unfold LRSchedule.get_lr, float_div_int, int_div_int.
  destruct (Z.ltb_spec step (LRSchedule.t1 s)).
  - destruct (Z.eqb_spec (LRSchedule.t1 s) 0) as [Ht1|Ht1].
    + split; [intros [= <-]; repeat split; lia|].
      intros (_ & _ & ->). reflexivity.
    + split; [discriminate|]. intros (Hz & _). contradiction.
  - split; [|intros (Hz & Hneg & _); lia].
    destruct (Z.ltb_spec step (LRSchedule.t2 s)); [discriminate|].
    destruct (Z.ltb_spec step (LRSchedule.t3 s)); [|discriminate].
    destruct (Z.eqb_spec (LRSchedule.t3 s - LRSchedule.t2 s) 0); [lia|].
    simpl.
    destruct (String.eqb _ "linear"); [discriminate|].
    destruct (String.eqb _ "cosine"); discriminate.
Qed.

(** The quotient of two integers as the schedule uses it. *)
Lemma ratio_facts (a b : Z) :
  0 < b ->
  (0 < / inject_Z b)%Q /\
  (inject_Z b * / inject_Z b == 1)%Q /\
  (0 <= a -> (0 <= inject_Z a)%Q) /\
  (a <= b -> (inject_Z a <= inject_Z b)%Q).
Proof.
  intros Hb.
  assert (Hb' : (0 < inject_Z b)%Q) by (unfold Qlt; simpl; lia).
  split; [now apply Qinv_lt_0_compat|].
  split; [apply Qmult_inv_r; intros Heq; rewrite Heq in Hb'; discriminate Hb'|].
  split; intros Hle; unfold Qle; simpl; lia.
Qed.

Lemma scaled_ratio_le (x : Q) (a a' b : Z) :
  (0 <= x)%Q -> 0 < b -> a <= a' ->
  (x * inject_Z a / inject_Z b <= x * inject_Z a' / inject_Z b)%Q.
Proof.
  intros Hx Hb Ha.
  destruct (ratio_facts a b Hb) as (Hr & _ & _ & _).
  assert (Haa : (inject_Z a <= inject_Z a')%Q) by (unfold Qle; simpl; lia).
  unfold Qdiv.
  apply Qmult_le_compat_r; [|now apply Qlt_le_weak].
  rewrite !(Qmult_comm x). now apply Qmult_le_compat_r.
Qed.

Lemma scaled_ratio_full (x : Q) (b : Z) :
  0 < b -> (x * inject_Z b / inject_Z b == x)%Q.
Proof.
  intros Hb. apply Qdiv_mult_l.
  intros Heq. assert (Hb' : (0 < inject_Z b)%Q) by (unfold Qlt; simpl; lia).
  rewrite Heq in Hb'. discriminate Hb'.
Qed.

(** X11. The warmup is a ramp: for a base rate that is not negative the
    rate does not decrease from step to step below [t1], it is
    [lr * step / t1], and it stays at or below the base rate. *)
Theorem get_lr_warmup_ramp {math : Math} (s : LRSchedule.t) (step step' : Z) :
  (0 <= LRSchedule.lr s)%Q ->
  step <= step' < LRSchedule.t1 s ->
  0 < LRSchedule.t1 s ->
  exists v v',
    LRSchedule.get_lr s step = Ok v /\
    LRSchedule.get_lr s step' = Ok v' /\
    (v == LRSchedule.lr s * inject_Z step / inject_Z (LRSchedule.t1 s))%Q /\
    (v <= v')%Q /\ (v' <= LRSchedule.lr s)%Q.
Proof.
  intros Hlr Hstep Ht1. unfold LRSchedule.get_lr, float_div_int.
  destruct (Z.ltb_spec step (LRSchedule.t1 s)); [|lia].
  destruct (Z.ltb_spec step' (LRSchedule.t1 s)); [|lia].
  destruct (Z.eqb_spec (LRSchedule.t1 s) 0); [lia|].
  eexists _, _. split; [reflexivity|]. split; [reflexivity|].
  split; [reflexivity|]. split.
  - apply scaled_ratio_le; [exact Hlr|exact Ht1|lia].
  - rewrite <- (scaled_ratio_full (LRSchedule.lr s) (LRSchedule.t1 s) Ht1) at 2.
    apply scaled_ratio_le; [exact Hlr|exact Ht1|lia].
Qed.

Lemma get_lr_warmup_ramp_witness :
  exists v v',
    LRSchedule.get_lr (math := demo_math) demo_schedule 0 = Ok v /\
    LRSchedule.get_lr (math := demo_math) demo_schedule 1 = Ok v' /\
    (v == LRSchedule.lr demo_schedule * inject_Z 0
          / inject_Z (LRSchedule.t1 demo_schedule))%Q /\
    (v <= v')%Q /\ (v' <= LRSchedule.lr demo_schedule)%Q.
Proof.
  apply (@get_lr_warmup_ramp demo_math demo_schedule 0 1).
  - vm_compute. discriminate.
  - vm_compute. split; [discriminate|reflexivity].
  - vm_compute. reflexivity.
Defined.

(** The progress through the decay phase lies in [[0, 1]] and grows with
    the step. *)
Lemma progress_facts (a a' b : Z) :
  0 <= a -> a <= a' -> a' <= b -> 0 < b ->
  (0 <= inject_Z a / inject_Z b)%Q /\
  (inject_Z a / inject_Z b <= inject_Z a' / inject_Z b)%Q /\
  (inject_Z a' / inject_Z b <= 1)%Q.
Proof.
  intros Ha Haa Hab Hb.
  assert (H0 : (inject_Z 0 / inject_Z b == 0)%Q) by (unfold Qdiv; ring).
  assert (H1 : (inject_Z b / inject_Z b == 1)%Q).
  { unfold Qdiv. apply Qmult_inv_r. intros Heq.
    assert (Hb' : (0 < inject_Z b)%Q) by (unfold Qlt; simpl; lia).
    rewrite Heq in Hb'. discriminate Hb'. }
  pose proof (scaled_ratio_le 1 0 a b ltac:(discriminate) Hb Ha) as L0.
  pose proof (scaled_ratio_le 1 a a' b ltac:(discriminate) Hb Haa) as L1.
  pose proof (scaled_ratio_le 1 a' b b ltac:(discriminate) Hb Hab) as L2.
  rewrite !Qmult_1_l in L0, L1, L2.
  rewrite H0 in L0. rewrite H1 in L2. auto.
Qed.

(** X12. The linear decay goes down: for a base rate that is not negative
    the rate does not increase from step to step between [t2] and [t3], it
    starts from the base rate at [t2] and it stays at or above zero. *)
Theorem get_lr_linear_decay {math : Math} (s : LRSchedule.t) (step step' : Z) :
  LRSchedule.decay_type s = "linear" ->
  (0 <= LRSchedule.lr s)%Q ->
  LRSchedule.t1 s <= step ->
  LRSchedule.t2 s <= step ->
  step <= step' < LRSchedule.t3 s ->
  exists v v',
    LRSchedule.get_lr s step = Ok v /\
    LRSchedule.get_lr s step' = Ok v' /\
    (0 <= v')%Q /\ (v' <= v)%Q /\ (v <= LRSchedule.lr s)%Q /\
    (step = LRSchedule.t2 s -> (v == LRSchedule.lr s)%Q).
Proof.
  intros Hlin Hlr Ht1 Ht2 Hstep.
  unfold LRSchedule.get_lr, int_div_int. rewrite Hlin. simpl.
  destruct (Z.ltb_spec step (LRSchedule.t1 s)); [lia|].
  destruct (Z.ltb_spec step' (LRSchedule.t1 s)); [lia|].
  destruct (Z.ltb_spec step (LRSchedule.t2 s)); [lia|].
  destruct (Z.ltb_spec step' (LRSchedule.t2 s)); [lia|].
  destruct (Z.ltb_spec step (LRSchedule.t3 s)); [|lia].
  destruct (Z.ltb_spec step' (LRSchedule.t3 s)); [|lia].
  destruct (Z.eqb_spec (LRSchedule.t3 s - LRSchedule.t2 s) 0); [lia|].
  simpl. eexists _, _. split; [reflexivity|]. split; [reflexivity|].
  destruct (progress_facts (step - LRSchedule.t2 s) (step' - LRSchedule.t2 s)
              (LRSchedule.t3 s - LRSchedule.t2 s)) as (P0 & P1 & P2);
    try lia.
  set (p := (inject_Z (step - LRSchedule.t2 s)
             / inject_Z (LRSchedule.t3 s - LRSchedule.t2 s))%Q) in *.
  set (p' := (inject_Z (step' - LRSchedule.t2 s)
              / inject_Z (LRSchedule.t3 s - LRSchedule.t2 s))%Q) in *.
  repeat split; try nra.
  intros ->. subst p. rewrite Z.sub_diag. unfold Qdiv.
  setoid_replace (inject_Z 0) with 0%Q using relation Qeq by reflexivity.
  ring.
Qed.

Lemma get_lr_linear_decay_witness :
  exists v v',
    LRSchedule.get_lr (math := demo_math) demo_schedule 7 = Ok v /\
    LRSchedule.get_lr (math := demo_math) demo_schedule 9 = Ok v' /\
    (0 <= v')%Q /\ (v' <= v)%Q /\ (v <= LRSchedule.lr demo_schedule)%Q /\
    (7 = LRSchedule.t2 demo_schedule -> (v == LRSchedule.lr demo_schedule)%Q).
Proof.
  apply (@get_lr_linear_decay demo_math demo_schedule 7 9).
  - reflexivity.
  - vm_compute. discriminate.
  - vm_compute. discriminate.
  - vm_compute. discriminate.
  - vm_compute. split; [discriminate|reflexivity].
Defined.

(** X13. With a cosine that stays within [[-1, 1]] and a base rate that is
    not negative, the schedule answers every step from 0 on with a rate
    between 0 and the base rate, whatever the decay type. *)
Theorem get_lr_within_bounds {math : Math} (s : LRSchedule.t) (step : Z) :
  (forall x, -1 <= cos x <= 1)%Q ->
  (0 <= LRSchedule.lr s)%Q ->
  0 <= step ->
  exists v, LRSchedule.get_lr s step = Ok v /\
            (0 <= v)%Q /\ (v <= LRSchedule.lr s)%Q.
Proof.
  intros Hcos Hlr Hstep. unfold LRSchedule.get_lr, float_div_int, int_div_int.
  destruct (Z.ltb_spec step (LRSchedule.t1 s)).
  - destruct (Z.eqb_spec (LRSchedule.t1 s) 0); [lia|].
    eexists. split; [reflexivity|].
    pose proof (scaled_ratio_le (LRSchedule.lr s) 0 step (LRSchedule.t1 s)
                  Hlr ltac:(lia) Hstep) as L0.
    pose proof (scaled_ratio_le (LRSchedule.lr s) step (LRSchedule.t1 s)
                  (LRSchedule.t1 s) Hlr ltac:(lia) ltac:(lia)) as L1.
    rewrite scaled_ratio_full in L1 by lia.
    split; [|exact L1].
    eapply Qle_trans; [|exact L0]. unfold Qdiv, Qle. simpl. lia.
  - destruct (Z.ltb_spec step (LRSchedule.t2 s)).
    { eexists. split; [reflexivity|]. split; [exact Hlr|apply Qle_refl]. }
    destruct (Z.ltb_spec step (LRSchedule.t3 s)).
    2:{ eexists. split; [reflexivity|]. split; [apply Qle_refl|exact Hlr]. }
    destruct (Z.eqb_spec (LRSchedule.t3 s - LRSchedule.t2 s) 0); [lia|].
    simpl.
    destruct (progress_facts (step - LRSchedule.t2 s) (step - LRSchedule.t2 s)
                (LRSchedule.t3 s - LRSchedule.t2 s)) as (P0 & _ & P2);
      try lia.
    set (p := (inject_Z (step - LRSchedule.t2 s)
               / inject_Z (LRSchedule.t3 s - LRSchedule.t2 s))%Q) in *.
    destruct (String.eqb _ "linear").
    { eexists. split; [reflexivity|]. split; nra. }
    destruct (String.eqb _ "cosine").
    { eexists. split; [reflexivity|].
      specialize (Hcos (p * pi)%Q). split; nra. }
    eexists. split; [reflexivity|]. split; [apply Qle_refl|exact Hlr].
Qed.

Lemma get_lr_within_bounds_witness :
  exists v, LRSchedule.get_lr (math := demo_math) demo_schedule_no_warmup 8
            = Ok v /\
            (0 <= v)%Q /\ (v <= LRSchedule.lr demo_schedule_no_warmup)%Q.
Proof.
  apply (@get_lr_within_bounds demo_math demo_schedule_no_warmup 8).
  - intros x. vm_compute. split; discriminate.
  - vm_compute. discriminate.
  - lia.
Defined.

(** ** The gradient norm *)

Lemma py_sum_from (items : list Q) (a : Q) :
  (fold_left Qplus items a == a + Qsum items)%Q.
Proof.
  revert a. induction items as [|x items IH]; intros a; simpl.
  - ring.
  - rewrite IH. ring.
Qed.

Lemma squares_sum (grad : list Q) :
  (0 <= Qsum (map (fun x => x * x) grad))%Q /\
  ((Qsum (map (fun x => x * x) grad) == 0)%Q
   <-> Forall (fun x => (x == 0)%Q) grad).
Proof.
  induction grad as [|x grad [IH0 IH]]; simpl.
  - split; [apply Qle_refl|]. split; [constructor|reflexivity].
  - assert (Hx : (0 <= x * x)%Q) by nra.
    split; [nra|]. split.
    + intros Hsum.
      assert (Hxx : (x * x == 0)%Q) by nra.
      assert (Hrest : (Qsum (map (fun x => x * x) grad) == 0)%Q) by nra.
      constructor; [|now apply IH].
      apply Qmult_integral in Hxx. tauto.
    + intros Hall. apply Forall_cons in Hall as [Hx0 Hall].
      apply IH in Hall. rewrite Hall, Hx0. ring.
Qed.

Lemma grad_square_sums_sum (grads : list (option (list Q))) :
  (0 <= Qsum (grad_square_sums grads))%Q /\
  ((Qsum (grad_square_sums grads) == 0)%Q
   <-> Forall (fun grad => forall entries, grad = Some entries ->
                 Forall (fun x => (x == 0)%Q) entries) grads).
Proof.
  induction grads as [|[grad|] grads [IH0 IH]]; simpl.
  - split; [apply Qle_refl|]. split; [constructor|reflexivity].
  - destruct (squares_sum grad) as [Hg0 Hg].
    split; [nra|]. split.
    + intros Hsum. constructor.
      * intros entries [= <-]. apply Hg. nra.
      * apply IH. nra.
    + intros Hall. apply Forall_cons in Hall as [Hhere Hall].
      apply IH in Hall. specialize (Hhere grad eq_refl).
      apply Hg in Hhere. rewrite Hall, Hhere. ring.
  - split; [exact IH0|]. rewrite IH. split.
    + intros Hall. constructor; [discriminate|exact Hall].
    + intros Hall. now apply Forall_cons in Hall as [_ Hall].
Qed.

Lemma Qsum_app (l1 l2 : list Q) : (Qsum (l1 ++ l2) == Qsum l1 + Qsum l2)%Q.
Proof.
  induction l1 as [|x l1 IH]; simpl; [ring|]. rewrite IH. ring.
Qed.

Lemma grad_square_sums_flat (grads : list (option (list Q))) :
  (Qsum (grad_square_sums grads) == sum_of_squared_entries grads)%Q.
Proof.
  unfold sum_of_squared_entries.
  induction grads as [|[grad|] grads IH]; simpl.
  - reflexivity.
  - rewrite map_app, Qsum_app, IH. reflexivity.
  - exact IH.
Qed.

(** X14. [get_grad_norm] is the power 0.5 of the sum of the squares of all
    entries of the gradients of the parameters that have one; parameters
    without gradient do not count. That sum is never negative (so the norm
    is a real number, not a complex one) and it is zero exactly when every
    gradient present is zero. *)
Theorem get_grad_norm_radicand {net : Net} {rt : Runtime} (model : TrainState) :
  exists radicand,
    get_grad_norm model = pow_half radicand /\
    (radicand == sum_of_squared_entries (param_grads model))%Q /\
    (0 <= radicand)%Q /\
    ((radicand == 0)%Q
     <-> Forall (fun grad => forall entries, grad = Some entries ->
                   Forall (fun x => (x == 0)%Q) entries)
                (param_grads model)).
Proof.
  exists (py_sum (grad_square_sums (param_grads model))).
  split; [reflexivity|].
  destruct (grad_square_sums_sum (param_grads model)) as [H0 Hiff].
  unfold py_sum.
  pose proof (py_sum_from (grad_square_sums (param_grads model)) 0) as Hsum.
  split; [|split].
  - rewrite Hsum, <- grad_square_sums_flat. ring.
  - rewrite Hsum. nra.
  - rewrite <- Hiff, Hsum. split; intros Heq; nra.
Qed.

(** ** The training loop *)

Section Loop.
Context {net : Net} {rt : Runtime} {math : Math} {torch : TorchRng}.
Variable args : Args.
Variable lr_schedule : option LRSchedule.t.
Variable fs : FileSystem.
Variable g : rng.

(** Logging only adds to the log. *)
Lemma log_step_frame (step : Z) (model model' : TrainState)
    (groups : list lr_cell) (loss : option Loss) (t0 t0' : Q) (c c' : nat) :
  log_step args step model groups loss t0 c = Done (model', t0', c') ->
  params model' = params model /\ grad model' = grad model /\
  training model' = training model.
Proof.
  unfold log_step.
  destruct (step mod log_interval =? 0); [|intros [= <- _ _]; auto].
  destruct loss as [l|]; [|discriminate]. simpl.
  destruct (py_index groups 0) as [group|e]; [|discriminate]. simpl.
  destruct (0 <? step).
  - destruct (Qeq_bool _ 0); [discriminate|]. intros [= <- _ _]. auto.
  - intros [= <- _ _]. auto.
Qed.

(** One round of the loop, taken apart. *)
Lemma loop_body_spec (s s' : LoopState) :
  loop_body args lr_schedule fs g s = Done s' ->
  exists m1 loss1 groups1,
    accumulate (gradient_accumulation args) (model s) (dloader s) (loss s)
    = Ok (m1, dloader s', loss1) /\
    update_lr lr_schedule (step s) (param_groups s) = Ok groups1 /\
    step s' = step s + 1 /\
    param_groups s' = groups1 /\
    (params (model s'), optim_state s')
    = optim_step (optim_state s) groups1 (params m1) (grad m1) /\
    grad (model s') = None /\
    (training m1 = true -> training (model s') = true) /\
    last_ckpt s'
    = (if (0 <? ckpt_interval args)
          && ((step s + 1) mod ckpt_interval args =? 0)
       then Some {| ckpt_model := params (model s');
                    ckpt_optim := (optim_state s', groups1);
                    ckpt_step := step s + 1 |}
       else last_ckpt s).
Proof.
  unfold loop_body.
  destruct (accumulate _ _ _ _) as [[[m1 dl1] loss1]|e] eqn:Hacc;
    [|discriminate]. simpl.
  destruct (update_lr _ _ _) as [groups1|e] eqn:Hlr; [|discriminate]. simpl.
  destruct (log_step _ _ _ _ _ _ _) as [[[m2 t0'] calls']|f] eqn:Hlog;
    [|discriminate]. simpl.
  apply log_step_frame in Hlog as (Hp & Hg & Ht).
  rewrite Hp, Hg.
  destruct (optim_step _ _ _ _) as [params' optim'] eqn:Hopt.
  intros Hdone. exists m1, loss1, groups1.
  match goal with |- ?G =>
  assert (Hplain : forall m : TrainState,
            params m = params' -> grad m = None ->
            (training m1 = true -> training m = true) ->
            Done {| step := step s + 1; model := m; optim_state := optim';
                    param_groups := groups1; dloader := dl1; loss := loss1;
                    time0 := t0'; time_calls := calls';
                    last_ckpt :=
                      if (0 <? ckpt_interval args)
                         && ((step s + 1) mod ckpt_interval args =? 0)
                      then Some {| ckpt_model := params';
                                   ckpt_optim := (optim', groups1);
                                   ckpt_step := step s + 1 |}
                      else last_ckpt s;
                    prof_started :=
                      prof_started s || (profile args && (step s + 1 =? 1)) |}
            = Done s' -> G) end.
  { intros m Hpm Hgm Htm [= <-]. simpl. rewrite Hpm, <- Hopt.
    repeat split; try reflexivity; try assumption. }
  destruct (val_dataset_dir args) as [dir|].
  - destruct ((0 <? val_interval args) && _).
    + pose proof (evaluation_block_frame fs dir (batch_size args)
                    (seq_len args) (step s + 1)
                    {| params := params'; training := training m2;
                       grad := None; logged := logged m2 |} g) as [Hfp Hfg].
      pose proof (evaluation_block_ends_training fs dir (batch_size args)
                    (seq_len args) (step s + 1)
                    {| params := params'; training := training m2;
                       grad := None; logged := logged m2 |} g) as Hmode.
      destruct (evaluation_block _ _ _ _ _ _ _) as [m4 [v|e]];
        [|discriminate].
      simpl in *. eapply Hplain; [exact Hfp|exact Hfg| |exact Hdone].
      intros _. eapply Hmode. reflexivity.
    + eapply Hplain. 4: exact Hdone. 1,2: reflexivity.
      simpl. congruence.
  - eapply Hplain. 4: exact Hdone. 1,2: reflexivity.
    simpl. congruence.
Qed.

(** What holds before the loop and is kept by every round holds after
    it; and then the step has reached the number of steps. *)
Lemma train_loop_invariant (I : LoopState -> Prop) (rounds : nat)
    (s s' : LoopState) :
  (forall s1 s2, I s1 -> step s1 < effective_n_steps args ->
                 loop_body args lr_schedule fs g s1 = Done s2 -> I s2) ->
  I s ->
  train_loop rounds args lr_schedule fs g s = Some (Done s') ->
  I s' /\ effective_n_steps args <= step s'.
Proof.
  intros Hkeep. revert s. induction rounds as [|rounds IH]; intros s HI; simpl.
  - destruct (Z.ltb_spec (step s) (effective_n_steps args)); [discriminate|].
    intros [= <-]. auto.
  - destruct (Z.ltb_spec (step s) (effective_n_steps args)) as [Hlt|Hge].
    + destruct (loop_body args lr_schedule fs g s) as [s1|f] eqn:Hbody;
        [|discriminate].
      apply IH. eapply Hkeep; eauto.
    + intros [= <-]. auto.
Qed.

End Loop.

Example demo_run_completes :
  match train_loop (net := demo_net) (rt := demo_runtime) (math := demo_math)
          (torch := counting_rng) 2 demo_args (Some demo_schedule) demo_fs
          0%nat demo_loop_start with
  | Some (Done s') =>
      step s' = 2 /\ optim_state s' = 2%nat /\
      yielded (dloader s') = [] /\
      match last_ckpt s' with
      | Some c => ckpt_step c = 2
      | None => False
      end
  | _ => False
  end.
Proof. vm_compute. repeat split. Qed.

(** X15. A run of the loop that ends normally has brought the step
    counter to [n_steps] (or left it where it was, if that was beyond), and
    has taken [gradient_accumulation] batches per round from the loader,
    in the order of the stream. *)
Theorem train_loop_runs_to_n_steps {net : Net} {rt : Runtime} {math : Math}
    {torch : TorchRng} (args : Args) (lr_schedule : option LRSchedule.t)
    (fs : FileSystem) (g : rng) (rounds : nat) (s s' : LoopState) :
  train_loop rounds args lr_schedule fs g s = Some (Done s') ->
  0 <= gradient_accumulation args ->
  step s' = Z.max (step s) (effective_n_steps args) /\
  exists consumed,
    yielded (dloader s) = consumed ++ yielded (dloader s') /\
    Z.of_nat (length consumed)
    = gradient_accumulation args * (step s' - step s).
Proof.
  intros Hrun Hg.
  pose (I := fun s1 : LoopState =>
    step s <= step s1 /\
    step s1 <= Z.max (step s) (effective_n_steps args) /\
    exists consumed,
      yielded (dloader s) = consumed ++ yielded (dloader s1) /\
      Z.of_nat (length consumed)
      = gradient_accumulation args * (step s1 - step s)).
  destruct (train_loop_invariant args lr_schedule fs g I rounds s s')
    as [(Hlo & Hhi & Hcons) Hend]; [| |exact Hrun|].
  - intros s1 s2 (Hlo & Hhi & consumed & Hy & Hlen) Hlt Hbody.
    destruct (loop_body_spec args lr_schedule fs g s1 s2 Hbody)
      as (m1 & loss1 & groups1 & Hacc & _ & Hstep & _).
    unfold accumulate in Hacc.
    destruct (accumulation_loop_spec _ _ _ _ _ _ _ Hacc)
      as (batches & losses & Hb & Hyb & _).
    unfold I. repeat split; try lia.
    exists (consumed ++ batches). split.
    + rewrite Hy, Hyb, app_assoc. reflexivity.
    + rewrite length_app. nia.
  - unfold I. repeat split; try lia.
    exists []. split; [reflexivity|simpl; lia].
  - split; [lia|exact Hcons].
Qed.

Lemma train_loop_runs_to_n_steps_witness :
  exists s',
    train_loop (net := demo_net) (rt := demo_runtime) (math := demo_math)
      (torch := counting_rng) 2 demo_args (Some demo_schedule) demo_fs
      0%nat demo_loop_start = Some (Done s') /\
    step s' = Z.max (step demo_loop_start) (effective_n_steps demo_args) /\
    exists consumed,
      yielded (dloader demo_loop_start)
      = consumed ++ yielded (dloader s') /\
      Z.of_nat (length consumed)
      = gradient_accumulation demo_args * (step s' - step demo_loop_start).
Proof.
  eexists. split.
  - vm_compute. reflexivity.
  - apply (@train_loop_runs_to_n_steps demo_net demo_runtime demo_math
             counting_rng demo_args (Some demo_schedule) demo_fs 0%nat 2
             demo_loop_start).
    + vm_compute. reflexivity.
    + vm_compute. discriminate.
Defined.

(** X16. What the optimizer is given. A round that starts without
    gradients (as every round does) and makes [g >= 1] sub-steps hands
    [optim.step()] the parameters it started with and a gradient that is,
    component by component, the sum of the gradients of the losses of this
    round's [g] batches; afterwards the gradients are gone again. *)
Theorem optimizer_step_gets_round_sum {net : Net} {rt : Runtime} {math : Math}
    {torch : TorchRng} (args : Args) (lr_schedule : option LRSchedule.t)
    (fs : FileSystem) (g : rng) (s s' : LoopState) :
  loop_body args lr_schedule fs g s = Done s' ->
  grad (model s) = None ->
  1 <= gradient_accumulation args ->
  exists batches losses acc,
    Z.of_nat (length batches) = gradient_accumulation args /\
    yielded (dloader s) = batches ++ yielded (dloader s') /\
    Forall2 (fun b l => get_loss (params (model s)) (training (model s))
                          b.1 b.2 = Ok l) batches losses /\
    (params (model s'), optim_state s')
    = optim_step (optim_state s) (param_groups s') (params (model s))
        (Some acc) /\
    (forall j, (acc j == Qsum (map (fun l => d_params l j) losses))%Q) /\
    grad (model s') = None.
Proof.
  intros Hbody Hnone Hg.
  destruct (loop_body_spec args lr_schedule fs g s s' Hbody)
    as (m1 & loss1 & groups1 & Hacc & _ & _ & Hgroups & Hopt & Hzero & _).
  unfold accumulate in Hacc.
  destruct (accumulation_loop_spec _ _ _ _ _ _ _ Hacc)
    as (batches & losses & Hb & Hyb & Hall & _ & Hp & _ & Hsome & Hsum).
  destruct Hsome as [acc Hacc']; [left; lia|].
  exists batches, losses, acc.
  rewrite Hgroups. rewrite Hp, Hacc' in Hopt.
  split; [lia|]. split; [exact Hyb|]. split; [exact Hall|].
  split; [exact Hopt|]. split; [|exact Hzero].
  intros j. specialize (Hsum j). rewrite Hacc', Hnone in Hsum. simpl in Hsum.
  rewrite Hsum. ring.
Qed.

Lemma optimizer_step_gets_round_sum_witness :
  exists s',
    loop_body (net := demo_net) (rt := demo_runtime) (math := demo_math)
      (torch := counting_rng) demo_args (Some demo_schedule) demo_fs 0%nat
      demo_loop_start = Done s' /\
    exists batches losses acc,
      Z.of_nat (length batches) = gradient_accumulation demo_args /\
      yielded (dloader demo_loop_start) = batches ++ yielded (dloader s') /\
      Forall2 (fun b l =>
                 get_loss (params (model demo_loop_start))
                   (training (model demo_loop_start)) b.1 b.2 = Ok l)
              batches losses /\
      (params (model s'), optim_state s')
      = optim_step (optim_state demo_loop_start) (param_groups s')
          (params (model demo_loop_start)) (Some acc) /\
      (forall j, (acc j == Qsum (map (fun l => d_params l j) losses))%Q) /\
      grad (model s') = None.
Proof.
  eexists. split.
  - vm_compute. reflexivity.
  - apply (@optimizer_step_gets_round_sum demo_net demo_runtime demo_math
             counting_rng demo_args (Some demo_schedule) demo_fs 0%nat
             demo_loop_start).
    + vm_compute. reflexivity.
    + reflexivity.
    + vm_compute. discriminate.
Defined.

(** X17. A run that starts in training mode and ends normally ends in
    training mode and without gradients: every round zeroes the gradients
    after the optimizer step, and an evaluation hands the model back in
    training mode. *)
Theorem train_loop_keeps_training_mode {net : Net} {rt : Runtime}
    {math : Math} {torch : TorchRng} (args : Args)
    (lr_schedule : option LRSchedule.t) (fs : FileSystem) (g : rng)
    (rounds : nat) (s s' : LoopState) :
  train_loop rounds args lr_schedule fs g s = Some (Done s') ->
  training (model s) = true ->
  grad (model s) = None ->
  training (model s') = true /\ grad (model s') = None.
Proof.
  intros Hrun Hmode Hgrad.
  pose (I := fun s1 : LoopState =>
    training (model s1) = true /\ grad (model s1) = None).
  destruct (train_loop_invariant args lr_schedule fs g I rounds s s')
    as [HI _]; [|split; assumption|exact Hrun|exact HI].
  intros s1 s2 [Hm1 _] _ Hbody.
  destruct (loop_body_spec args lr_schedule fs g s1 s2 Hbody)
    as (m1 & loss1 & groups1 & Hacc & _ & _ & _ & _ & Hzero & Htrain & _).
  unfold accumulate in Hacc.
  destruct (accumulation_loop_spec _ _ _ _ _ _ _ Hacc)
    as (_ & _ & _ & _ & _ & _ & _ & Ht & _).
  split; [apply Htrain; congruence|exact Hzero].
Qed.

Lemma train_loop_keeps_training_mode_witness :
  exists s',
    train_loop (net := demo_net) (rt := demo_runtime) (math := demo_math)
      (torch := counting_rng) 2 demo_args (Some demo_schedule) demo_fs
      0%nat demo_loop_start = Some (Done s') /\
    training (model s') = true /\ grad (model s') = None.
Proof.
  eexists. split.
  - vm_compute. reflexivity.
  - apply (@train_loop_keeps_training_mode demo_net demo_runtime demo_math
             counting_rng demo_args (Some demo_schedule) demo_fs 0%nat 2
             demo_loop_start).
    + vm_compute. reflexivity.
    + reflexivity.
    + reflexivity.
Defined.

Lemma next_multiple (step ci : Z) :
  0 < ci -> 0 <= step -> (step + 1) mod ci <> 0 ->
  (step + 1) / ci = step / ci.
Proof.
  intros Hci Hstep Hmod.
  pose proof (Z.div_mod step ci ltac:(lia)) as Hs.
  pose proof (Z.mod_pos_bound step ci Hci) as Hb.
  assert (Hlt : step mod ci + 1 < ci).
  { destruct (Z.eq_dec (step mod ci + 1) ci) as [Heq|]; [|lia].
    exfalso. apply Hmod.
    replace (step + 1) with (ci * (step / ci + 1)) by lia.
    rewrite Z.mul_comm. apply Z.mod_mul. lia. }
  symmetry. apply (Z.div_unique (step + 1) ci (step / ci) (step mod ci + 1));
    lia.
Qed.

(** X18. The checkpoint after a run from step 0 that ends normally. With
    [ckpt_interval <= 0] nothing is ever saved. With a positive interval
    the file is missing when the run was shorter than the interval, and
    otherwise holds the state of the last multiple of the interval: its
    step is [ckpt_interval * (n_steps / ckpt_interval)], which is before
    the last step unless the interval divides the number of steps; when
    it is the last step, the file holds the final parameters. *)
Theorem last_checkpoint_is_last_multiple {net : Net} {rt : Runtime}
    {math : Math} {torch : TorchRng} (args : Args)
    (lr_schedule : option LRSchedule.t) (fs : FileSystem) (g : rng)
    (rounds : nat) (s s' : LoopState) :
  train_loop rounds args lr_schedule fs g s = Some (Done s') ->
  step s = 0 ->
  last_ckpt s = None ->
  (ckpt_interval args <= 0 -> last_ckpt s' = None) /\
  (0 < ckpt_interval args ->
   match last_ckpt s' with
   | None => step s' < ckpt_interval args
   | Some c =>
       ckpt_step c = ckpt_interval args * (step s' / ckpt_interval args) /\
       0 < ckpt_step c <= step s' /\
       (ckpt_step c = step s' -> ckpt_model c = params (model s'))
   end).
Proof.
  intros Hrun Hstart Hnone.
  pose (I := fun s1 : LoopState =>
    0 <= step s1 /\
    (ckpt_interval args <= 0 -> last_ckpt s1 = None) /\
    (0 < ckpt_interval args ->
     match last_ckpt s1 with
     | None => step s1 < ckpt_interval args
     | Some c =>
         ckpt_step c = ckpt_interval args * (step s1 / ckpt_interval args) /\
         0 < ckpt_step c <= step s1 /\
         (ckpt_step c = step s1 -> ckpt_model c = params (model s1))
     end)).
  destruct (train_loop_invariant args lr_schedule fs g I rounds s s')
    as [(_ & Hoff & Hon) _]; [| |exact Hrun|split; assumption].
  - intros s1 s2 (Hpos & Hoff & Hon) _ Hbody.
    destruct (loop_body_spec args lr_schedule fs g s1 s2 Hbody)
      as (m1 & loss1 & groups1 & _ & _ & Hstep & _ & _ & _ & _ & Hckpt).
    unfold I. rewrite Hckpt, Hstep. split; [lia|]. split.
    + intros Hci. destruct (Z.ltb_spec 0 (ckpt_interval args)); [lia|].
      simpl. auto.
    + intros Hci. specialize (Hon Hci).
      destruct (Z.ltb_spec 0 (ckpt_interval args)); [|lia]. simpl.
      destruct (Z.eqb_spec ((step s1 + 1) mod ckpt_interval args) 0)
        as [Hmod|Hmod].
      * simpl.
        apply Z.div_exact in Hmod; [|lia].
        split; [exact Hmod|]. split; [lia|]. reflexivity.
      * rewrite (next_multiple _ _ Hci Hpos Hmod).
        destruct (last_ckpt s1) as [c|].
        -- destruct Hon as (Hc & Hrange & _).
           split; [exact Hc|]. split; [lia|]. intros Heq. lia.
        -- destruct (Z.eq_dec (step s1 + 1) (ckpt_interval args)) as [Heq|];
             [|lia].
           exfalso. apply Hmod. rewrite Heq. apply Z.mod_same. lia.
  - unfold I. rewrite Hstart, Hnone. split; [lia|]. split; [auto|].
    intros Hci. exact Hci.
Qed.

Lemma last_checkpoint_is_last_multiple_witness :
  exists s',
    train_loop (net := demo_net) (rt := demo_runtime) (math := demo_math)
      (torch := counting_rng) 2 demo_args (Some demo_schedule) demo_fs
      0%nat demo_loop_start = Some (Done s') /\
    (ckpt_interval demo_args <= 0 -> last_ckpt s' = None) /\
    (0 < ckpt_interval demo_args ->
     match last_ckpt s' with
     | None => step s' < ckpt_interval demo_args
     | Some c =>
         ckpt_step c
         = ckpt_interval demo_args * (step s' / ckpt_interval demo_args) /\
         0 < ckpt_step c <= step s' /\
         (ckpt_step c = step s' -> ckpt_model c = params (model s'))
     end).
Proof.
  eexists. split.
  - vm_compute. reflexivity.
  - apply (@last_checkpoint_is_last_multiple demo_net demo_runtime demo_math
             counting_rng demo_args (Some demo_schedule) demo_fs 0%nat 2
             demo_loop_start).
    + vm_compute. reflexivity.
    + reflexivity.
    + reflexivity.
Defined.

(** ** The learning rate in the loop *)

Lemma update_lr_spec {math : Math} (schedule : LRSchedule.t) (step : Z)
    (groups groups' : list lr_cell) :
  update_lr (Some schedule) step groups = Ok groups' ->
  exists lr, LRSchedule.get_lr schedule step = Ok lr /\
             groups' = map (set_lr lr) groups.
Proof.
  unfold update_lr.
  destruct (LRSchedule.get_lr schedule step) as [lr|e]; [|discriminate].
  simpl. intros [= <-]. eauto.
Qed.

Lemma set_lr_all (lr : Q) (groups : list lr_cell) :
  Forall (fun c => lr_of c = lr) (map (set_lr lr) groups).
Proof.
  induction groups as [|[v|v] groups IH]; simpl; constructor; auto.
Qed.

(** X19. The rate the optimizer works with. Without a schedule the
    parameter groups are never touched. With a schedule, after a normal
    run of at least one step from step 0 every parameter group carries
    [get_lr(n_steps - 1)]: round [k] sets the rate of step [k] before its
    optimizer step, so the rate of step [n_steps] itself is never used;
    the number of groups does not change. *)
Theorem train_loop_final_lr {net : Net} {rt : Runtime} {math : Math}
    {torch : TorchRng} (args : Args) (lr_schedule : option LRSchedule.t)
    (fs : FileSystem) (g : rng) (rounds : nat) (s s' : LoopState) :
  train_loop rounds args lr_schedule fs g s = Some (Done s') ->
  step s = 0 ->
  1 <= effective_n_steps args ->
  match lr_schedule with
  | None => param_groups s' = param_groups s
  | Some schedule =>
      length (param_groups s') = length (param_groups s) /\
      Forall (fun c => LRSchedule.get_lr schedule (effective_n_steps args - 1)
                       = Ok (lr_of c))
             (param_groups s')
  end.
Proof.
  intros Hrun Hstart Hn.
  pose (I := fun s1 : LoopState =>
    0 <= step s1 <= effective_n_steps args /\
    match lr_schedule with
    | None => param_groups s1 = param_groups s
    | Some schedule =>
        length (param_groups s1) = length (param_groups s) /\
        (1 <= step s1 ->
         Forall (fun c => LRSchedule.get_lr schedule (step s1 - 1)
                          = Ok (lr_of c))
                (param_groups s1))
    end).
  destruct (train_loop_invariant args lr_schedule fs g I rounds s s')
    as [[Hrange HI] Hend]; [| |exact Hrun|].
  - intros s1 s2 [Hrange HI] Hlt Hbody.
    destruct (loop_body_spec args lr_schedule fs g s1 s2 Hbody)
      as (m1 & loss1 & groups1 & _ & Hlr & Hstep & Hgroups & _).
    unfold I. split; [lia|]. rewrite Hgroups, Hstep.
    destruct lr_schedule as [schedule|].
    + apply update_lr_spec in Hlr as (lr & Hget & ->).
      destruct HI as [Hlen _]. split; [now rewrite length_map|].
      intros _. replace (step s1 + 1 - 1) with (step s1) by lia.
      rewrite Hget. eapply Forall_impl; [apply set_lr_all|].
      intros c Hc. simpl in Hc. now rewrite Hc.
    + simpl in Hlr. injection Hlr as <-. exact HI.
  - unfold I. split; [lia|].
    destruct lr_schedule; [|reflexivity]. split; [reflexivity|lia].
  - destruct lr_schedule as [schedule|]; [|exact HI].
    destruct HI as [Hlen Hall]. split; [exact Hlen|].
    replace (effective_n_steps args) with (step s') by lia.
    apply Hall. lia.
Qed.

Lemma train_loop_final_lr_witness :
  exists s',
    train_loop (net := demo_net) (rt := demo_runtime) (math := demo_math)
      (torch := counting_rng) 2 demo_args (Some demo_schedule) demo_fs
      0%nat demo_loop_start = Some (Done s') /\
    length (param_groups s') = length (param_groups demo_loop_start) /\
    Forall (fun c => LRSchedule.get_lr (math := demo_math) demo_schedule
                       (effective_n_steps demo_args - 1) = Ok (lr_of c))
           (param_groups s').
Proof.
  eexists. split.
  - vm_compute. reflexivity.
  - apply (@train_loop_final_lr demo_net demo_runtime demo_math counting_rng
             demo_args (Some demo_schedule) demo_fs 0%nat 2 demo_loop_start).
    + vm_compute. reflexivity.
    + reflexivity.
    + vm_compute. discriminate.
Defined.

Lemma get_lr_at_zero {math : Math} (schedule : LRSchedule.t) :
  exists lr, LRSchedule.get_lr schedule 0 = Ok lr.
Proof.
  unfold LRSchedule.get_lr, float_div_int, int_div_int.
  destruct (Z.ltb_spec 0 (LRSchedule.t1 schedule)).
  - destruct (Z.eqb_spec (LRSchedule.t1 schedule) 0); [lia|eauto].
  - destruct (Z.ltb_spec 0 (LRSchedule.t2 schedule)); [eauto|].
    destruct (Z.ltb_spec 0 (LRSchedule.t3 schedule)); [|eauto].
    destruct (Z.eqb_spec (LRSchedule.t3 schedule - LRSchedule.t2 schedule) 0);
      [lia|].
    simpl. destruct (String.eqb _ "linear"); [eauto|].
    destruct (String.eqb _ "cosine"); eauto.
Qed.

(** X20. With an accumulation count below one no sub-step binds [loss]:
    the first round (step 0, which logs) then fails with the [NameError] of
    reading it, before the optimizer is reached. *)
Theorem first_round_without_substeps_fails {net : Net} {rt : Runtime}
    {math : Math} {torch : TorchRng} (args : Args)
    (lr_schedule : option LRSchedule.t) (fs : FileSystem) (g : rng)
    (s : LoopState) :
  gradient_accumulation args <= 0 ->
  step s = 0 ->
  loss s = None ->
  loop_body args lr_schedule fs g s = Failed (NameError "loss").
Proof.
  intros Hg Hstep Hloss. unfold loop_body, accumulate.
  replace (Z.to_nat (gradient_accumulation args)) with 0%nat by lia.
  simpl. rewrite Hstep, Hloss.
  assert (Hlr : exists groups,
            update_lr lr_schedule 0 (param_groups s) = Ok groups).
  { destruct lr_schedule as [schedule|]; simpl; [|eauto].
    destruct (get_lr_at_zero schedule) as [lr ->]. simpl. eauto. }
  destruct Hlr as [groups ->]. reflexivity.
Qed.

Lemma first_round_without_substeps_fails_witness :
  loop_body (net := demo_net) (rt := demo_runtime) (math := demo_math)
    (torch := counting_rng)
    {| n_steps := 2; batch_size := 2; seq_len := 2;
       gradient_accumulation := -2; ckpt_interval := 0; val_interval := 0;
       val_dataset_dir := None; profile := false |}
    None demo_fs 0%nat demo_loop_start
  = Failed (NameError "loss").
Proof.
  apply (@first_round_without_substeps_fails demo_net demo_runtime demo_math
           counting_rng).
  - vm_compute. discriminate.
  - reflexivity.
  - reflexivity.
Defined.

